(** * Fake-news detection front end: prediction service and history store

    A shallow embedding of [src/services/api.ts] (the prediction service with
    its keyword fallback classifier) and of [handleAnalyze] in the application
    shell, which keeps the last analyses in [localStorage].

    Representation choices:
    - a JavaScript string is a [string] of 8-bit code units; [toLowerCase]
      folds the letters A-Z, which is what the built-in does on such text
      (every indicator phrase of the classifier is plain ASCII);
    - a JavaScript number is a rational [Q]; counts and the confidences the
      fallback computes are integers, computed in [Z] and injected;
    - an awaited promise is its settled outcome, [Resolved] or [Rejected];
    - the outside world of one call (the HTTP backend behind [apiRequest],
      the clock behind [Date]) is an explicit environment [Env];
    - React state and [localStorage] are threaded through [handleAnalyze] as
      an explicit [AppState].

    The second part covers the rest of [api.ts] (batch prediction, history,
    statistics, [fetchNewsFromUrl]) and the components that read what the
    first part writes: the history panel, the result card and the simple
    shell. There the outcome of each further request is a field of
    [Services], and each component's state is a record of its own.
    Arithmetic on numbers that need not be integers is IEEE double
    arithmetic; it is not computed here but passed in as a [Float], of
    which only its exactness on integers is known. *)

From stdpp Require Import base option strings list gmap pretty.
From Stdlib Require Import Ascii ZArith QArith Qround Lia.

Local Open Scope string_scope.
Local Open Scope Z_scope.

(** ** JavaScript built-ins used by the code *)

Module Js.

Definition number := Q.

Definition lower_code_unit (c : ascii) : ascii :=
  let n := N_of_ascii c in
  if ((65 <=? n) && (n <=? 90))%N then ascii_of_N (n + 32) else c.

(** [String.prototype.toLowerCase] *)
Fixpoint toLowerCase (s : string) : string :=
  match s with
  | EmptyString => EmptyString
  | String c rest => String (lower_code_unit c) (toLowerCase rest)
  end.

(** [String.prototype.includes]: [word] occurs in [s] at some offset. *)
Fixpoint includes (s word : string) : bool :=
  String.prefix word s ||
  match s with
  | EmptyString => false
  | String _ rest => includes rest word
  end.

(** Truthiness of a string and of an optional string argument:
    [undefined] and the empty string are falsy. *)
Definition truthy (s : string) : bool :=
  match s with EmptyString => false | String _ _ => true end.

Definition truthy_opt (s : option string) : bool :=
  match s with Some s => truthy s | None => false end.

(** [a || b] on strings. *)
Definition or_else (a b : string) : string := if truthy a then a else b.

(** Number-to-string conversion of an integer, as in ['x' + n]. *)
Definition toString (n : Z) : string := pretty n.

(** [Array.prototype.pop]: the array without its last element. *)
Definition pop {A} (a : list A) : list A := take (length a - 1)%nat a.

(** [Array.prototype.unshift] with one argument. *)
Definition unshift {A} (x : A) (a : list A) : list A := x :: a.

Inductive Error :=
| APIError (status : Z) (message : string)
| PlainError (message : string).

Definition message (e : Error) : string :=
  match e with APIError _ m => m | PlainError m => m end.

(** The settled outcome of an awaited promise. *)
Inductive Promise (T : Type) :=
| Resolved (value : T)
| Rejected (error : Error).
Arguments Resolved {T} value.
Arguments Rejected {T} error.

End Js.

Import Js.

(** ** Data model of [api.ts] *)

Inductive Label := real | fake | inconclusive.
Inductive Impact := impact_positive | impact_negative | impact_neutral.
Inductive AnalysisType := type_text | type_url | type_file.

Record Factor := {
  name : string;
  score : number;
  impact : Impact;
  description : string
}.

Record PredictionResult := {
  id : string;
  prediction : Label;
  confidence : number;
  explanation : string;
  factors : list Factor;
  sources : list string;
  timestamp : string;
  inputText : string;
  inputUrl : option string;
  modelVersion : string;
  processingTime : option number;
  (* not declared by the interface, but written by the code *)
  analysis_type : option AnalysisType
}.

(** The JSON document the text endpoint answers with (its [features] member
    is never read by the client). *)
Module Backend.
Record Response := {
  prediction : string;
  confidence : number;
  explanation : string
}.
End Backend.

(** What [JSON.stringify] is applied to in [predictFakeNews]. *)
Inductive RequestBody :=
| UrlBody (url language : string)
| TextBody (text language : string) (analysis_type : option AnalysisType).

Record Request := {
  endpoint : string;
  method : string;
  body : RequestBody
}.

(** The world as one call sees it: the outcome of [apiRequest<T>] at each of
    the two types it is used at, and the clock readings. *)
Record Env := {
  apiRequest_result : Request -> Promise PredictionResult;
  apiRequest_response : Request -> Promise Backend.Response;
  Date_now : Z;
  Date_toISOString : string
}.

(** ** The fallback classifier *)

Definition fakeIndicators : list string :=
  ["shocking"; "unbelievable"; "you won't believe"; "click here"; "amazing"; "secret"].

Definition realIndicators : list string :=
  ["according to"; "study"; "research"; "university"; "published"].

Definition fakeCount (text : string) : Z :=
  let lowerText := toLowerCase text in
  Z.of_nat (length (List.filter (fun word => includes lowerText word) fakeIndicators)).

Definition realCount (text : string) : Z :=
  let lowerText := toLowerCase text in
  Z.of_nat (length (List.filter (fun word => includes lowerText word) realIndicators)).

(** The rule of lines 121-136: the verdict and its integer confidence. *)
Definition fallbackRule (fakeCount realCount : Z) : Label * Z :=
  if (fakeCount >? realCount) && (fakeCount >? 0) then
    (fake, Z.min 85 (60 + fakeCount * 10))
  else if (realCount >? fakeCount) && (realCount >? 0) then
    (real, Z.min 85 (60 + realCount * 10))
  else
    (inconclusive, 60).

Definition fallbackExplanation (prediction : Label) : string :=
  "This analysis uses a simple fallback system. " ++
  match prediction with
  | fake => "The text contains language patterns often associated with misinformation."
  | real => "The text appears to follow standard journalistic patterns."
  | inconclusive => "The text shows mixed indicators and requires further verification."
  end.

Definition createFallbackPrediction (env : Env) (text : string) : PredictionResult :=
  let fakeCount := fakeCount text in
  let realCount := realCount text in
  let '(prediction, confidence) := fallbackRule fakeCount realCount in
  {| id := "fallback-" ++ toString (Date_now env);
     prediction := prediction;
     confidence := inject_Z confidence;
     explanation := fallbackExplanation prediction;
     factors :=
       [ {| name := "Pattern Analysis";
            score := inject_Z confidence;
            impact := match prediction with fake => impact_negative | _ => impact_positive end;
            description :=
              "Simple keyword-based analysis (" ++ toString fakeCount ++ " fake indicators, "
              ++ toString realCount ++ " real indicators)" |} ];
     sources := ["https://www.snopes.com"; "https://www.factcheck.org"];
     timestamp := Date_toISOString env;
     inputText := text;
     inputUrl := None;
     modelVersion := "fallback-v1.0";
     processingTime := None;
     analysis_type := None |}.


(** ** The prediction service *)

Definition predictRequest (body : RequestBody) : Request :=
  {| endpoint := "/predict"; method := "POST"; body := body |}.

(** The request of the text branch: [analysis_type] is added to the body
    only when the argument is given. *)
Definition textRequest (text : string) (analysisType : option AnalysisType) : Request :=
  predictRequest (TextBody text "en" analysisType).

(** The object the text branch returns for the backend's answer
    (lines 191-202). *)
Definition mappedResult (env : Env) (text : string) (analysisType : option AnalysisType)
    (response : Backend.Response) : PredictionResult :=
  {| id := toString (Date_now env);
     prediction :=
       if String.eqb (toLowerCase (Backend.prediction response)) "fake"
       then fake else real;
     confidence := Backend.confidence response;
     explanation := Backend.explanation response;
     factors := [];
     sources := [];
     timestamp := Date_toISOString env;
     inputText := text;
     inputUrl := None;
     modelVersion := "lightweight-v1.0";
     processingTime := None;
     analysis_type := Some (default type_text analysisType) |}.

(** The [try] block of [predictFakeNews]: a rejected request leaves it by the
    exception, which the [catch] clause below receives. *)
Definition predictFakeNews_try (env : Env) (text : string) (url : option string)
    (analysisType : option AnalysisType) : Promise PredictionResult :=
  if truthy_opt url then
    match apiRequest_result env (predictRequest (UrlBody (default "" url) "en")) with
    | Resolved response =>
        Resolved
          {| id := id response;
             prediction := prediction response;
             confidence := confidence response;
             explanation := explanation response;
             factors := factors response;
             sources := sources response;
             timestamp := or_else (timestamp response) (Date_toISOString env);
             inputText := inputText response;
             inputUrl := inputUrl response;
             modelVersion := modelVersion response;
             processingTime := processingTime response;
             analysis_type := analysis_type response |}
    | Rejected error => Rejected error
    end
  else
    match apiRequest_response env (textRequest text analysisType) with
    | Resolved response => Resolved (mappedResult env text analysisType response)
    | Rejected error => Rejected error
    end.

Definition predictFakeNews (env : Env) (text : string) (url : option string)
    (analysisType : option AnalysisType) : Promise PredictionResult :=
  match predictFakeNews_try env text url analysisType with
  | Resolved result => Resolved result
  | Rejected error =>
      if truthy_opt url then
        Rejected (PlainError
          "URL analysis requires backend connection. Please check if the server is running.")
      else
        Resolved (createFallbackPrediction env text)
  end.

(** ** The application shell: [handleAnalyze] *)

(** The React state [handleAnalyze] writes, and [localStorage]. Stored values
    are kept parsed: the entry under a key is the array that [JSON.parse]
    gives back for what [JSON.stringify] wrote. *)
Record AppState := {
  currentResult : option PredictionResult;
  isAnalyzing : bool;
  historyKey : Z;
  localStorage : gmap string (list PredictionResult)
}.

(** [{ ...result, analysis_type: analysisType }] *)
Definition with_analysis_type (result : PredictionResult) (analysisType : AnalysisType)
    : PredictionResult :=
  {| id := id result;
     prediction := prediction result;
     confidence := confidence result;
     explanation := explanation result;
     factors := factors result;
     sources := sources result;
     timestamp := timestamp result;
     inputText := inputText result;
     inputUrl := inputUrl result;
     modelVersion := modelVersion result;
     processingTime := processingTime result;
     analysis_type := Some analysisType |}.

(** [JSON.parse(localStorage.getItem('predictionHistory') || '[]')] *)
Definition storedHistory (storage : gmap string (list PredictionResult)) : list PredictionResult :=
  default [] (storage !! "predictionHistory").

Definition analysisTypeOf (url : option string) (isFileUpload : bool) : AnalysisType :=
  if truthy_opt url then type_url else if isFileUpload then type_file else type_text.

Definition handleAnalyze (env : Env) (st : AppState) (text : string) (url : option string)
    (isFileUpload : bool) : AppState :=
  let analysisType := analysisTypeOf url isFileUpload in
  match predictFakeNews env text url (Some analysisType) with
  | Resolved result =>
      let enhancedResult := with_analysis_type result analysisType in
      let history := storedHistory (localStorage st) in
      let history := unshift enhancedResult history in
      let history := if (50 <? length history)%nat then pop history else history in
      {| currentResult := Some enhancedResult;
         isAnalyzing := false;
         historyKey := historyKey st + 1;
         localStorage := <["predictionHistory" := history]> (localStorage st) |}
  | Rejected error =>
      {| currentResult :=
           Some {| id := "error-" ++ toString (Date_now env);
                   prediction := inconclusive;
                   confidence := 0%Q;
                   explanation := message error;
                   factors := [];
                   sources := [];
                   timestamp := Date_toISOString env;
                   inputText := or_else text "URL analysis failed";
                   inputUrl := url;
                   modelVersion := "unknown";
                   processingTime := None;
                   analysis_type := Some analysisType |};
         isAnalyzing := false;
         historyKey := historyKey st;
         localStorage := localStorage st |}
  end.

(** ** Sample worlds used by the examples *)

Definition connectionError : Error :=
  PlainError "Failed to connect to the API. Please check if the backend is running.".

(** The backend is down. *)
Definition offline (now : Z) (iso : string) : Env :=
  {| apiRequest_result := fun _ => Rejected connectionError;
     apiRequest_response := fun _ => Rejected connectionError;
     Date_now := now;
     Date_toISOString := iso |}.

(** The text endpoint answers every request with [response]. *)
Definition answering (response : Backend.Response) (now : Z) (iso : string) : Env :=
  {| apiRequest_result := fun _ => Rejected connectionError;
     apiRequest_response := fun _ => Resolved response;
     Date_now := now;
     Date_toISOString := iso |}.

Definition scenarioA : string :=
  "SHOCKING! You won't believe this amazing discovery! Click here!".

(** The same text endpoint answer, used to exercise the mapped path. *)
Definition sampleResponse : Backend.Response :=
  {| Backend.prediction := "REAL";
     Backend.confidence := 50%Q;
     Backend.explanation := "This text appears to be legitimate news." |}.

(** An answer whose confidence is off the percent scale. *)
Definition overconfidentResponse : Backend.Response :=
  {| Backend.prediction := "FAKE";
     Backend.confidence := 150%Q;
     Backend.explanation := "This text appears to be fake news." |}.

Definition emptyState : AppState :=
  {| currentResult := None; isAnalyzing := false; historyKey := 0; localStorage := ∅ |}.

(** ** Notions the specification is stated with *)

(** The selection rule as the specification words it, on the scale
    "confidence that the text is real". *)
Definition realScaleRule (r : PredictionResult) : Prop :=
  ((60 <= confidence r)%Q -> prediction r = real)
  /\ ((confidence r <= 40)%Q -> prediction r = fake)
  /\ ((40 < confidence r)%Q /\ (confidence r < 60)%Q -> prediction r = inconclusive).

(** The failure the specification expects of an analysis. *)
Definition fails {T} (p : Promise T) : Prop := exists error, p = Rejected error.

(** A result with its [timestamp] blanked, and with both fields that are read
    off the clock blanked. *)
Definition without_timestamp (r : PredictionResult) : PredictionResult :=
  {| id := id r;
     prediction := prediction r;
     confidence := confidence r;
     explanation := explanation r;
     factors := factors r;
     sources := sources r;
     timestamp := "";
     inputText := inputText r;
     inputUrl := inputUrl r;
     modelVersion := modelVersion r;
     processingTime := processingTime r;
     analysis_type := analysis_type r |}.

Definition without_clock_fields (r : PredictionResult) : PredictionResult :=
  {| id := "";
     prediction := prediction r;
     confidence := confidence r;
     explanation := explanation r;
     factors := factors r;
     sources := sources r;
     timestamp := "";
     inputText := inputText r;
     inputUrl := inputUrl r;
     modelVersion := modelVersion r;
     processingTime := processingTime r;
     analysis_type := analysis_type r |}.

(** The branch of the rule that produced a verdict, with the tests that
    led to it. *)
Inductive fallbackRule_spec (f k : Z) : Label * Z -> Prop :=
| rule_fake : f > k -> f > 0 ->
    fallbackRule_spec f k (fake, Z.min 85 (60 + f * 10))
| rule_real : ~ (f > k /\ f > 0) -> k > f -> k > 0 ->
    fallbackRule_spec f k (real, Z.min 85 (60 + k * 10))
| rule_tie : ~ (f > k /\ f > 0) -> ~ (k > f /\ k > 0) ->
    fallbackRule_spec f k (inconclusive, 60).

(** * The rest of the service, and the components around it *)

(** ** More built-ins *)

Module JsLib.

(** [Array.prototype.slice(start, stop)] at integer arguments: a negative
    index counts from the end, both are clipped to the array. *)
Definition slice {A} (a : list A) (start stop : Z) : list A :=
  let len := Z.of_nat (length a) in
  let k := if start <? 0 then Z.max (len + start) 0 else Z.min start len in
  let final := if stop <? 0 then Z.max (len + stop) 0 else Z.min stop len in
  take (Z.to_nat (final - k)) (drop (Z.to_nat k) a).


(** Double-precision arithmetic, as far as the code uses it on numbers that
    need not be integers: [+], [*], [/] and [Math.round]. The operations
    round, so they are not the rational ones; what is known of them is that
    they are exact on integers up to [2 ^ 53]. *)
Record Float := {
  fadd : number -> number -> number;
  fmul : number -> number -> number;
  fdiv : number -> number -> number;
  Math_round : number -> Z;
  fadd_exact : forall a b : Z,
    Z.abs a <= 2 ^ 53 -> Z.abs b <= 2 ^ 53 -> Z.abs (a + b) <= 2 ^ 53 ->
    fadd (inject_Z a) (inject_Z b) = inject_Z (a + b);
  fmul_exact : forall a b : Z,
    Z.abs a <= 2 ^ 53 -> Z.abs b <= 2 ^ 53 -> Z.abs (a * b) <= 2 ^ 53 ->
    fmul (inject_Z a) (inject_Z b) = inject_Z (a * b);
  Math_round_exact : forall a : Z,
    Z.abs a <= 2 ^ 53 -> Math_round (inject_Z a) = a
}.


(** [x || d] for a number that may be missing: zero is falsy. *)
Definition number_or (x : option number) (d : number) : number :=
  match x with
  | Some q => if Qeq_bool q 0 then d else q
  | None => d
  end.

(** [x || d] for a string that may be missing. *)
Definition string_or (x : option string) (d : string) : string :=
  match x with
  | Some s => or_else s d
  | None => d
  end.


End JsLib.

Import JsLib.

(** [===] on the string literals of the two unions. *)
#[global] Instance Label_eq_dec : EqDecision Label.
Proof. solve_decision. Defined.

#[global] Instance AnalysisType_eq_dec : EqDecision AnalysisType.
Proof. solve_decision. Defined.

(** ** Data model of the remaining endpoints *)

Module Stats.

(** The answer of [/stats]. *)
Record Response := {
  total_predictions : number;
  by_prediction : option (gmap string number);
  by_analysis_type : option (gmap string number)
}.


End Stats.

Module History.

(** The identifier of a row, a number or a string. *)
Inductive ItemId := NumberId (n : Z) | StringId (s : string).

(** A row of the answer of [/history]; any member may be missing. *)
Record Item := {
  id : option ItemId;
  prediction : option string;
  confidence : option number;
  explanation : option string;
  created_at : option string;
  text : option string;
  analysis_type : option AnalysisType
}.

(** What [getPredictionHistory] resolves to. [page] is [None] for the
    values that are no finite number (a division by a zero [limit]). *)
Record Page := {
  predictions : list PredictionResult;
  total : Z;
  page : option Z;
  perPage : Z
}.

End History.

(** The outcome of [apiRequest] at the remaining endpoints, with the world
    of [predictFakeNews]. *)
Record Services := {
  world : Env;
  request_batch : list string -> Promise (list PredictionResult);
  request_stats : Promise Stats.Response;
  request_history : Promise (list History.Item)
}.

(** ** The remaining functions of [api.ts] *)

(** [{ ...pred, timestamp: pred.timestamp || new Date().toISOString() }] *)
Definition with_timestamp_default (env : Env) (pred : PredictionResult) : PredictionResult :=
  {| id := id pred;
     prediction := prediction pred;
     confidence := confidence pred;
     explanation := explanation pred;
     factors := factors pred;
     sources := sources pred;
     timestamp := or_else (timestamp pred) (Date_toISOString env);
     inputText := inputText pred;
     inputUrl := inputUrl pred;
     modelVersion := modelVersion pred;
     processingTime := processingTime pred;
     analysis_type := analysis_type pred |}.

Definition predictBatchFakeNews (sv : Services) (texts : list string)
    : Promise (list PredictionResult) :=
  match request_batch sv texts with
  | Resolved predictions => Resolved (map (with_timestamp_default (world sv)) predictions)
  | Rejected error => Rejected error
  end.

Definition fetchNewsFromUrl (env : Env) (url : string) : Promise string :=
  match predictFakeNews env "" (Some url) None with
  | Resolved result => Resolved (inputText result)
  | Rejected error => Rejected error
  end.





(** [item.id?.toString() || 'unknown'] *)
Definition itemIdString (i : option History.ItemId) : string :=
  string_or
    (match i with
     | Some (History.NumberId n) => Some (toString n)
     | Some (History.StringId s) => Some s
     | None => None
     end)
    "unknown".

(** The object a row of the backend's history is mapped to. *)
Definition historyEntry (env : Env) (item : History.Item) : PredictionResult :=
  {| id := itemIdString (History.id item);
     prediction :=
       match History.prediction item with
       | Some p => if String.eqb (toLowerCase p) "fake" then fake else real
       | None => real
       end;
     confidence := number_or (History.confidence item) 0%Q;
     explanation := string_or (History.explanation item) "No explanation available";
     factors := [];
     sources := [];
     timestamp := string_or (History.created_at item) (Date_toISOString env);
     inputText := string_or (History.text item) "";
     inputUrl := None;
     modelVersion := "lightweight-v1.0";
     processingTime := None;
     analysis_type := Some (default type_text (History.analysis_type item)) |}.

(** [Math.floor(offset / limit) + 1] *)
Definition pageOf (offset limit : Z) : option Z :=
  if limit =? 0 then None else Some (offset / limit + 1).

(** [getPredictionHistory(limit, offset)]; the declared defaults are 50 and 0. *)
Definition getPredictionHistory (sv : Services) (storage : gmap string (list PredictionResult))
    (limit offset : Z) : Promise History.Page :=
  match request_history sv with
  | Resolved history =>
      Resolved
        {| History.predictions := map (historyEntry (world sv)) history;
           History.total := Z.of_nat (length history);
           History.page := Some 1;
           History.perPage := Z.of_nat (length history) |}
  | Rejected _ =>
      match storage !! "predictionHistory" with
      | Some localHistory =>
          let startIndex := offset in
          let endIndex := startIndex + limit in
          let pageData := slice localHistory startIndex endIndex in
          Resolved
            {| History.predictions := pageData;
               History.total := Z.of_nat (length localHistory);
               History.page := pageOf offset limit;
               History.perPage := limit |}
      | None =>
          Resolved
            {| History.predictions := [];
               History.total := 0;
               History.page := Some 1;
               History.perPage := limit |}
      end
  end.

(** ** The history panel *)

Module HistoryPanel.

(** The component's state; [filterType] is [None] for ['all']. *)
Record State := {
  history : list PredictionResult;
  isLoading : bool;
  error : option string;
  total : Z;
  page : Z;
  hasMore : bool;
  filterType : option AnalysisType
}.

(** [item.input_url] is a member of the backend's rows only; the entries of
    this model do not carry it. *)
Definition getAnalysisType (item : PredictionResult) : AnalysisType :=
  match analysis_type item with
  | Some t => t
  | None => if truthy_opt (inputUrl item) then type_url else type_text
  end.

Definition filteredHistory (st : State) : list PredictionResult :=
  List.filter
    (fun item =>
       match filterType st with
       | None => true
       | Some t => bool_decide (getAnalysisType item = t)
       end)
    (history st).

Definition typeCount (t : AnalysisType) (history : list PredictionResult) : nat :=
  length (List.filter (fun item => bool_decide (getAnalysisType item = t)) history).

(** [{ textCount, urlCount, fileCount }] *)
Definition getTypeStats (st : State) : nat * nat * nat :=
  (typeCount type_text (history st),
   typeCount type_url (history st),
   typeCount type_file (history st)).

Definition loadHistory (sv : Services) (storage : gmap string (list PredictionResult))
    (st : State) (pageNum : Z) (append : bool) : State :=
  let limit := 20 in
  let offset := (pageNum - 1) * limit in
  match getPredictionHistory sv storage limit offset with
  | Resolved response =>
      {| history :=
           if append then history st ++ History.predictions response
           else History.predictions response;
         isLoading := false;
         error := None;
         total := History.total response;
         page := pageNum;
         hasMore :=
           (Z.of_nat (length (History.predictions response)) =? limit)
           && (offset + limit <? History.total response);
         filterType := filterType st |}
  | Rejected _ =>
      match storage !! "predictionHistory" with
      | Some localHistory =>
          let startIndex := (pageNum - 1) * 20 in
          let endIndex := startIndex + 20 in
          let pageData := slice localHistory startIndex endIndex in
          {| history := if append then history st ++ pageData else pageData;
             isLoading := false;
             error :=
               if (0 <? length localHistory)%nat
               then Some "Using local data - backend unavailable" else None;
             total := Z.of_nat (length localHistory);
             page := page st;
             hasMore := endIndex <? Z.of_nat (length localHistory);
             filterType := filterType st |}
      | None =>
          {| history := [];
             isLoading := false;
             error := None;
             total := 0;
             page := page st;
             hasMore := false;
             filterType := filterType st |}
      end
  end.

(** The effect run when the panel mounts. *)
Definition initializeHistory (sv : Services) (storage : gmap string (list PredictionResult))
    (st : State) : State :=
  let st :=
    match storage !! "predictionHistory" with
    | Some localHistory =>
        {| history := slice localHistory 0 20;
           isLoading := isLoading st;
           error := error st;
           total := Z.of_nat (length localHistory);
           page := page st;
           hasMore := hasMore st;
           filterType := filterType st |}
    | None => st
    end in
  loadHistory sv storage st 1 false.

Definition loadMore (sv : Services) (storage : gmap string (list PredictionResult))
    (st : State) : State :=
  loadHistory sv storage st (page st + 1) true.

(** [confirmed] is the answer to [window.confirm]. *)
Definition clearHistory (confirmed : bool) (storage : gmap string (list PredictionResult))
    (st : State) : State * gmap string (list PredictionResult) :=
  if confirmed then
    ({| history := [];
        isLoading := isLoading st;
        error := error st;
        total := 0;
        page := page st;
        hasMore := hasMore st;
        filterType := filterType st |},
     delete "predictionHistory" storage)
  else (st, storage).



End HistoryPanel.

(** ** The result card *)

Module ResultDisplay.

Definition getStatusText (result : PredictionResult) : string :=
  match prediction result with
  | real => "Likely Credible"
  | fake => "Likely Misinformation"
  | inconclusive => "Inconclusive"
  end.

Definition getConfidenceColor (fp : Float) (result : PredictionResult) : string :=
  let confidencePercent := fmul fp (confidence result) 100%Q in
  if Qle_bool 80 confidencePercent then "bg-green-500"
  else if Qle_bool 60 confidencePercent then "bg-yellow-500"
  else "bg-red-500".

(** The number shown before the percent sign:
    [Math.round(result.confidence * 100)]. *)
Definition shownPercent (fp : Float) (result : PredictionResult) : Z :=
  Math_round fp (fmul fp (confidence result) 100%Q).

End ResultDisplay.

(** ** The simple application shell *)

Module SimpleApp.

(** What the shell keeps in [result]: a prediction, or the object its
    [catch] clause builds (without its empty [features] member). *)
Inductive Shown :=
| Prediction (result : PredictionResult)
| Failure (prediction : string) (confidence : number) (explanation : string).

Record State := {
  result : option Shown;
  isLoading : bool;
  showFeedback : bool;
  refreshHistory : Z
}.

(** [handleAnalyze(text, analysisType = 'text')]. The second argument is
    what the caller passes in that position: nothing, or a string (the input
    form passes the URL there); the declared default fills in for nothing.
    It is handed to [predictFakeNews] in the position of the URL. *)
Definition handleAnalyze (env : Env) (st : State) (text : string)
    (analysisType : option string) : State :=
  let analysisType := default "text" analysisType in
  match predictFakeNews env text (Some analysisType) None with
  | Resolved prediction =>
      {| result := Some (Prediction prediction);
         isLoading := false;
         showFeedback := showFeedback st;
         refreshHistory := refreshHistory st + 1 |}
  | Rejected _ =>
      {| result := Some (Failure "ERROR" 0%Q "Analysis failed. Please try again.");
         isLoading := false;
         showFeedback := showFeedback st;
         refreshHistory := refreshHistory st |}
  end.

End SimpleApp.

(** ** Runs of the application *)

(** One click on an analyse button, with the world it happens in. *)
Record Click := {
  click_world : Env;
  click_text : string;
  click_url : option string;
  click_isFileUpload : bool
}.

Definition handleClick (st : AppState) (c : Click) : AppState :=
  handleAnalyze (click_world c) st (click_text c) (click_url c) (click_isFileUpload c).

Definition handleClicks (clicks : list Click) (st : AppState) : AppState :=
  fold_left handleClick clicks st.

(** A service whose history endpoint is down, over a given world. *)
Definition historyDown (env : Env) : Services :=
  {| world := env;
     request_batch := fun _ => Rejected connectionError;
     request_stats := Rejected connectionError;
     request_history := Rejected connectionError |}.

(** ** More sample worlds *)

(** The URL endpoint answers every request with [response]. *)
Definition urlAnswering (response : PredictionResult) (now : Z) (iso : string) : Env :=
  {| apiRequest_result := fun _ => Resolved response;
     apiRequest_response := fun _ => Rejected connectionError;
     Date_now := now;
     Date_toISOString := iso |}.

(** A result as the backend sends it, without a timestamp. *)
Definition sampleResult : PredictionResult :=
  {| id := "17";
     prediction := fake;
     confidence := 87.5%Q;
     explanation := "This text appears to be fake news with 87.5% confidence.";
     factors := [];
     sources := [];
     timestamp := "";
     inputText := "Article text";
     inputUrl := Some "https://example.org/article";
     modelVersion := "lightweight-v1.0";
     processingTime := None;
     analysis_type := Some type_url |}.

Definition sampleItem : History.Item :=
  {| History.id := Some (History.NumberId 3);
     History.prediction := Some "FAKE";
     History.confidence := Some 87.5%Q;
     History.explanation := None;
     History.created_at := Some "2024-03-15T10:00:00";
     History.text := Some "SHOCKING news";
     History.analysis_type := None |}.

(** Every endpoint answers. *)
Definition online (env : Env) : Services :=
  {| world := env;
     request_batch := fun texts => Resolved [sampleResult; sampleResult];
     request_stats :=
       Resolved {| Stats.total_predictions := 2%Q;
                   Stats.by_prediction := Some {[ "FAKE" := 2%Q ]};
                   Stats.by_analysis_type := None |};
     request_history := Resolved [sampleItem] |}.

(** A store holding the fallback's results for three texts. *)
Definition sampleStorage : gmap string (list PredictionResult) :=
  {[ "predictionHistory" :=
       [ with_analysis_type (createFallbackPrediction (offline 3 "c") "secret study") type_text;
         with_analysis_type (createFallbackPrediction (offline 2 "b") "shocking") type_file;
         with_analysis_type (createFallbackPrediction (offline 1 "a") "") type_text ] ]}.

(** The panel before it has loaded anything. *)
Definition emptyPanel : HistoryPanel.State :=
  {| HistoryPanel.history := [];
     HistoryPanel.isLoading := true;
     HistoryPanel.error := None;
     HistoryPanel.total := 0;
     HistoryPanel.page := 1;
     HistoryPanel.hasMore := false;
     HistoryPanel.filterType := None |}.

(** Page [i] (from 0) of the history, [limit] entries a page, as
    [getPredictionHistory] hands it out. *)
Definition historyPage (sv : Services) (storage : gmap string (list PredictionResult))
    (limit : Z) (i : nat) : list PredictionResult :=
  match getPredictionHistory sv storage limit (Z.of_nat i * limit) with
  | Resolved p => History.predictions p
  | Rejected _ => []
  end.

(** * Properties *)

(** ** Indicator counts *)

Lemma fakeCount_range text : 0 <= fakeCount text <= 6.
Proof.
  unfold fakeCount. cbv zeta.
  pose proof (List.filter_length_le
                (fun word => includes (toLowerCase text) word) fakeIndicators) as Hle.
  change (length fakeIndicators) with 6%nat in Hle. lia.
Qed.

Lemma realCount_range text : 0 <= realCount text <= 5.
Proof.
  unfold realCount. cbv zeta.
  pose proof (List.filter_length_le
                (fun word => includes (toLowerCase text) word) realIndicators) as Hle.
  change (length realIndicators) with 5%nat in Hle. lia.
Qed.

(** ** The rule, case by case *)

Lemma fallbackRule_cases f k : fallbackRule_spec f k (fallbackRule f k).
Proof.
  unfold fallbackRule.
  destruct (Z.gtb_spec f k) as [Hfk | Hfk], (Z.gtb_spec f 0) as [Hf | Hf]; simpl;
    try (apply rule_fake; lia);
    destruct (Z.gtb_spec k f) as [Hkf | Hkf], (Z.gtb_spec k 0) as [Hk | Hk]; simpl;
    solve [ apply rule_real; lia | apply rule_tie; lia ].
Qed.

Lemma createFallbackPrediction_prediction env text :
  prediction (createFallbackPrediction env text)
  = (fallbackRule (fakeCount text) (realCount text)).1.
Proof. unfold createFallbackPrediction. by destruct (fallbackRule _ _). Qed.

Lemma createFallbackPrediction_confidence env text :
  confidence (createFallbackPrediction env text)
  = inject_Z (fallbackRule (fakeCount text) (realCount text)).2.
Proof. unfold createFallbackPrediction. by destruct (fallbackRule _ _). Qed.

Lemma createFallbackPrediction_modelVersion env text :
  modelVersion (createFallbackPrediction env text) = "fallback-v1.0".
Proof. unfold createFallbackPrediction. by destruct (fallbackRule _ _). Qed.

Lemma inject_Z_between (a c b : Z) :
  a <= c <= b -> (inject_Z a <= inject_Z c <= inject_Z b)%Q.
Proof. intros [Ha Hb]. split; by rewrite <- Zle_Qle. Qed.

Lemma inject_Z_inj (a b : Z) : inject_Z a = inject_Z b -> a = b.
Proof. by intros [= ->]. Qed.

(** The verdict and the confidence of the fallback, as functions of the two
    counts of a text. *)
Lemma fallback_by_counts env text :
  let r := createFallbackPrediction env text in
  let f := fakeCount text in
  let k := realCount text in
  (f > k /\ prediction r = fake /\ confidence r = inject_Z (Z.min 85 (60 + f * 10)))
  \/ (k > f /\ prediction r = real /\ confidence r = inject_Z (Z.min 85 (60 + k * 10)))
  \/ (f = k /\ prediction r = inconclusive /\ confidence r = inject_Z 60).
Proof.
  intros r f k. subst r.
  rewrite createFallbackPrediction_prediction, createFallbackPrediction_confidence.
  pose proof (fakeCount_range text) as Hf. pose proof (realCount_range text) as Hk.
  fold f in Hf |- *. fold k in Hk |- *.
  destruct (fallbackRule_cases f k) as [Hfk Hpos | Hno Hkf Hpos | Hno1 Hno2]; simpl.
  - left. auto.
  - right; left. auto.
  - right; right. split; [lia | auto].
Qed.

(** ** The text branch of the service *)

Lemma predictFakeNews_text env text url analysisType :
  truthy_opt url = false ->
  predictFakeNews env text url analysisType =
    match apiRequest_response env (textRequest text analysisType) with
    | Resolved response => Resolved (mappedResult env text analysisType response)
    | Rejected _ => Resolved (createFallbackPrediction env text)
    end.
Proof.
  intros Hurl. unfold predictFakeNews, predictFakeNews_try. rewrite Hurl.
  by destruct (apiRequest_response env _).
Qed.

(** A result of the text branch is the mapped answer or the fallback. *)
Lemma predictFakeNews_text_inv env text url analysisType r :
  truthy_opt url = false ->
  predictFakeNews env text url analysisType = Resolved r ->
  (exists response,
      apiRequest_response env (textRequest text analysisType) = Resolved response
      /\ r = mappedResult env text analysisType response)
  \/ (exists error,
      apiRequest_response env (textRequest text analysisType) = Rejected error
      /\ r = createFallbackPrediction env text).
Proof.
  intros Hurl. rewrite predictFakeNews_text by done.
  destruct (apiRequest_response env _) as [response | error]; intros [= <-]; eauto.
Qed.

Lemma mappedResult_never_inconclusive env text analysisType response :
  prediction (mappedResult env text analysisType response) <> inconclusive.
Proof. unfold mappedResult; simpl. by destruct (String.eqb _ _). Qed.

(** ** Range of the fallback confidence *)

Lemma fallback_confidence_value env text :
  exists c : Z,
    confidence (createFallbackPrediction env text) = inject_Z c
    /\ 60 <= c <= 85
    /\ (prediction (createFallbackPrediction env text) = inconclusive -> c = 60)
    /\ (c = 60 -> prediction (createFallbackPrediction env text) = inconclusive).
Proof.
  pose proof (fakeCount_range text) as Hf. pose proof (realCount_range text) as Hk.
  destruct (fallback_by_counts env text)
    as [(Hgt & -> & ->) | [(Hgt & -> & ->) | (Heq & -> & ->)]];
    eexists; (split; [reflexivity |]); repeat split; try lia; try discriminate.
Qed.

(** C9. For every text the confidence of [createFallbackPrediction] lies in
    [60, 85], and it is exactly 60 whenever the verdict is [inconclusive]. *)
Theorem fallback_confidence_60_85 env text :
  (60 <= confidence (createFallbackPrediction env text) <= 85)%Q
  /\ (prediction (createFallbackPrediction env text) = inconclusive ->
      confidence (createFallbackPrediction env text) = 60%Q).
Proof.
  destruct (fallback_confidence_value env text) as (c & -> & Hc & Hinc & _). split.
  - by apply (inject_Z_between 60 c 85).
  - intros H. by rewrite (Hinc H).
Qed.

Lemma fallback_confidence_60_85_witness :
  (60 <= confidence (createFallbackPrediction (offline 0 "") "") <= 85)%Q
  /\ confidence (createFallbackPrediction (offline 0 "") "") = 60%Q.
Proof.
  destruct (fallback_confidence_60_85 (offline 0 "") "") as [Hrange Hinc].
  split; [exact Hrange | apply Hinc; reflexivity].
Defined.

(** C2, as stated, fails on the mapped path: the confidence of the backend's
    answer is handed on as it is, so an answer of confidence 150 gives a
    result of confidence 150. *)
Lemma mapped_confidence_not_clamped :
  let r := mappedResult (answering overconfidentResponse 0 "") "x" None overconfidentResponse in
  predictFakeNews (answering overconfidentResponse 0 "") "x" None None = Resolved r
  /\ ~ (0 <= confidence r <= 100)%Q.
Proof.
  intros r. split; [reflexivity |].
  intros [_ Hle]. apply Hle. reflexivity.
Qed.

(** C2, amended. For every text the confidence of the fallback result is in
    [0, 100], and so is that of the result [predictFakeNews] returns when the
    request of a text analysis fails. When the backend answers, the result
    carries the backend's confidence unchanged, with no clamp: it is in
    [0, 100] exactly when the backend's number is. *)
Theorem confidence_in_0_100 env text :
  (0 <= confidence (createFallbackPrediction env text) <= 100)%Q
  /\ (forall url analysisType r,
        truthy_opt url = false ->
        predictFakeNews env text url analysisType = Resolved r ->
        (forall error,
            apiRequest_response env (textRequest text analysisType) = Rejected error ->
            (0 <= confidence r <= 100)%Q)
        /\ (forall response,
              apiRequest_response env (textRequest text analysisType) = Resolved response ->
              confidence r = Backend.confidence response
              /\ ((0 <= confidence r <= 100)%Q
                  <-> (0 <= Backend.confidence response <= 100)%Q))).
Proof.
  assert (Hfb : (0 <= confidence (createFallbackPrediction env text) <= 100)%Q).
  { destruct (fallback_confidence_value env text) as (c & -> & Hc & _).
    apply (inject_Z_between 0 c 100). lia. }
  split; [exact Hfb |].
  intros url analysisType r Hurl Hr. rewrite predictFakeNews_text in Hr by done. split.
  - intros error Herr. rewrite Herr in Hr. by injection Hr as <-.
  - intros response Hresp. rewrite Hresp in Hr. injection Hr as <-. by split.
Qed.

Lemma confidence_in_0_100_witness :
  (0 <= confidence (createFallbackPrediction (answering sampleResponse 0 "") scenarioA) <= 100)%Q
  /\ confidence (mappedResult (answering sampleResponse 0 "") scenarioA None sampleResponse)
     = 50%Q.
Proof.
  destruct (confidence_in_0_100 (answering sampleResponse 0 "") scenarioA) as [Hfb Hall].
  split; [exact Hfb |].
  destruct (Hall None None
              (mappedResult (answering sampleResponse 0 "") scenarioA None sampleResponse)
              eq_refl eq_refl) as [_ Hmapped].
  destruct (Hmapped sampleResponse eq_refl) as [Hsame _]. exact Hsame.
Defined.

(** ** Label selection *)

(** C3, as stated, fails: one fake indicator gives the verdict [fake] with
    confidence 70, which the stated rule would label [real]. *)
Lemma realScaleRule_fails_on_shocking :
  ~ realScaleRule (createFallbackPrediction (offline 0 "") "shocking").
Proof.
  intros [Hreal _].
  assert (Hge : (60 <= confidence (createFallbackPrediction (offline 0 "") "shocking"))%Q)
    by discriminate.
  specialize (Hreal Hge). discriminate Hreal.
Qed.

(** C3, amended. The verdict is chosen by comparing the two indicator counts:
    [fake] iff more fake than real indicators occur, [real] iff more real
    than fake, [inconclusive] iff as many of each; the confidence is the
    strength of that verdict, never below 60 (so never at or under 40). *)
Theorem label_by_indicator_counts env text :
  let r := createFallbackPrediction env text in
  (prediction r = fake <-> fakeCount text > realCount text)
  /\ (prediction r = real <-> realCount text > fakeCount text)
  /\ (prediction r = inconclusive <-> fakeCount text = realCount text)
  /\ (60 <= confidence r)%Q.
Proof.
  intros r. subst r.
  assert (Hlo : (60 <= confidence (createFallbackPrediction env text))%Q).
  { destruct (fallback_confidence_value env text) as (c & -> & Hc & _).
    apply (inject_Z_between 60 c 85 Hc). }
  destruct (fallback_by_counts env text)
    as [(Hgt & Hp & _) | [(Hgt & Hp & _) | (Heq & Hp & _)]];
    rewrite Hp; repeat split; try done; try lia; try (intros; exfalso; lia).
Qed.

Lemma label_by_indicator_counts_witness :
  prediction (createFallbackPrediction (offline 0 "") "shocking") = fake.
Proof.
  destruct (label_by_indicator_counts (offline 0 "") "shocking") as [[_ Hfake] _].
  apply Hfake. reflexivity.
Defined.

(** ** Shape of the fallback classifier *)

(** C5, as stated, fails: the confidence is not a value clamped to [0, 1],
    and it is not a function of the distance between the two counts: one
    fake indicator against none and two against one are equally far from
    the tie, with confidences 70 and 80. *)
Lemma fallback_confidence_not_a_clamped_distance :
  ~ (0 <= confidence (createFallbackPrediction (offline 0 "") "") <= 1)%Q
  /\ fakeCount "shocking" - realCount "shocking"
     = fakeCount "shocking secret study" - realCount "shocking secret study"
  /\ confidence (createFallbackPrediction (offline 0 "") "shocking")
     <> confidence (createFallbackPrediction (offline 0 "") "shocking secret study").
Proof.
  split; [| split].
  - intros [_ Hle]. apply Hle. reflexivity.
  - reflexivity.
  - discriminate.
Qed.

(** C5, amended. The fallback counts which of six fixed fake phrases and of
    five fixed real phrases occur in the lower-cased text, each once;
    the verdict is the side with the larger count ([inconclusive] on a tie),
    and the confidence, on the 0-100 scale, is 60 plus ten per occurrence of
    the winning side, capped at 85 (60 on a tie). *)
Theorem fallback_is_an_indicator_count env text :
  let r := createFallbackPrediction env text in
  let f := fakeCount text in
  let k := realCount text in
  f = Z.of_nat (length (List.filter (includes (toLowerCase text)) fakeIndicators))
  /\ k = Z.of_nat (length (List.filter (includes (toLowerCase text)) realIndicators))
  /\ 0 <= f <= 6 /\ 0 <= k <= 5
  /\ (f > k -> prediction r = fake /\ confidence r = inject_Z (Z.min 85 (60 + f * 10)))
  /\ (k > f -> prediction r = real /\ confidence r = inject_Z (Z.min 85 (60 + k * 10)))
  /\ (f = k -> prediction r = inconclusive /\ confidence r = 60%Q).
Proof.
  intros r f k.
  split; [reflexivity |]. split; [reflexivity |].
  split; [apply fakeCount_range |]. split; [apply realCount_range |].
  destruct (fallback_by_counts env text)
    as [(Hgt & Hp & Hc) | [(Hgt & Hp & Hc) | (Heq & Hp & Hc)]];
    fold r in Hp, Hc; fold f in Hgt || fold f in Heq; fold k in Hgt || fold k in Heq;
    repeat split; intros; try lia; assumption.
Qed.

Lemma fallback_is_an_indicator_count_witness :
  prediction (createFallbackPrediction (offline 0 "") "shocking secret study") = fake
  /\ confidence (createFallbackPrediction (offline 0 "") "shocking secret study") = 80%Q.
Proof.
  destruct (fallback_is_an_indicator_count (offline 0 "") "shocking secret study")
    as (_ & _ & _ & _ & Hfake & _).
  apply Hfake. reflexivity.
Defined.

(** ** Scenario A *)

(** C7, as stated, fails: the confidence of the verdict is not at most 40. *)
Lemma scenarioA_confidence_not_le_40 :
  ~ (prediction (createFallbackPrediction (offline 0 "") scenarioA) = fake
     /\ (confidence (createFallbackPrediction (offline 0 "") scenarioA) <= 40)%Q).
Proof. intros [_ Hle]. apply Hle. reflexivity. Qed.

(** C7, amended. For the text of scenario A the fallback finds four fake
    indicators and no real one, and the analysis with the backend down
    returns the verdict [fake] with confidence 85. *)
Theorem scenarioA_is_fake_with_85 env now iso analysisType :
  fakeCount scenarioA = 4 /\ realCount scenarioA = 0
  /\ prediction (createFallbackPrediction env scenarioA) = fake
  /\ confidence (createFallbackPrediction env scenarioA) = 85%Q
  /\ predictFakeNews (offline now iso) scenarioA None analysisType
     = Resolved (createFallbackPrediction (offline now iso) scenarioA).
Proof. repeat split. Qed.

(** ** The inconclusive verdict *)

(** C1, as stated, fails in both directions: the fallback answers the empty
    text with [inconclusive] at confidence 60, outside the open band, and the
    mapped path turns a backend answer of confidence 50 into [real]. *)
Lemma inconclusive_band_fails :
  (let r := createFallbackPrediction (offline 0 "") "" in
   ~ (prediction r = inconclusive <-> (40 < confidence r)%Q /\ (confidence r < 60)%Q))
  /\ (let r := mappedResult (answering sampleResponse 0 "") "" None sampleResponse in
      predictFakeNews (answering sampleResponse 0 "") "" None None = Resolved r
      /\ ~ (prediction r = inconclusive <-> (40 < confidence r)%Q /\ (confidence r < 60)%Q)).
Proof.
  split.
  - intros r [Hto _]. destruct (Hto eq_refl) as [_ Hlt]. discriminate Hlt.
  - intros r. split; [reflexivity |].
    intros [_ Hfrom]. assert (Hinc : prediction r = inconclusive) by (by apply Hfrom).
    discriminate Hinc.
Qed.

(** C1, amended. A result that [predictFakeNews] returns for a text is
    [inconclusive] iff it is a fallback result of confidence exactly 60; for
    the fallback itself: [inconclusive] iff confidence 60. The mapped path
    never answers [inconclusive]: its label is [fake] when the backend's
    label, lower-cased, is ['fake'] and [real] otherwise, and its confidence
    is the backend's, unchanged. *)
Theorem inconclusive_iff_fallback_at_60 env text url analysisType r :
  truthy_opt url = false ->
  predictFakeNews env text url analysisType = Resolved r ->
  (prediction r = inconclusive <-> modelVersion r = "fallback-v1.0" /\ confidence r = 60%Q)
  /\ (prediction (createFallbackPrediction env text) = inconclusive
      <-> confidence (createFallbackPrediction env text) = 60%Q)
  /\ (forall response,
        apiRequest_response env (textRequest text analysisType) = Resolved response ->
        (prediction r = fake <-> toLowerCase (Backend.prediction response) = "fake")
        /\ (prediction r = real <-> toLowerCase (Backend.prediction response) <> "fake")
        /\ confidence r = Backend.confidence response).
Proof.
  intros Hurl Hr.
  assert (Hfb : prediction (createFallbackPrediction env text) = inconclusive
                <-> confidence (createFallbackPrediction env text) = 60%Q).
  { destruct (fallback_confidence_value env text) as (c & -> & _ & Hinc & Hback). split.
    - intros H. by rewrite (Hinc H).
    - intros H. apply Hback. by apply inject_Z_inj. }
  split; [| split; [exact Hfb |]].
  - destruct (predictFakeNews_text_inv _ _ _ _ _ Hurl Hr)
      as [(response & _ & ->) | (error & _ & ->)].
    + split.
      * intros H. by apply mappedResult_never_inconclusive in H.
      * intros [Hv _]. discriminate Hv.
    + rewrite createFallbackPrediction_modelVersion. rewrite Hfb. tauto.
  - intros response Hresp. rewrite predictFakeNews_text in Hr by done.
    rewrite Hresp in Hr. injection Hr as <-. unfold mappedResult. simpl.
    destruct (String.eqb_spec (toLowerCase (Backend.prediction response)) "fake")
      as [Heq | Hne]; repeat split; try done.
Qed.

Lemma inconclusive_iff_fallback_at_60_witness :
  prediction (mappedResult (answering sampleResponse 0 "") "" None sampleResponse) = real
  /\ confidence (mappedResult (answering sampleResponse 0 "") "" None sampleResponse) = 50%Q
  /\ (prediction (createFallbackPrediction (answering sampleResponse 0 "") "") = inconclusive
      <-> confidence (createFallbackPrediction (answering sampleResponse 0 "") "") = 60%Q).
Proof.
  destruct (inconclusive_iff_fallback_at_60 (answering sampleResponse 0 "") "" None None
              (mappedResult (answering sampleResponse 0 "") "" None sampleResponse)
              eq_refl eq_refl) as (_ & Hfb & Hmapped).
  destruct (Hmapped sampleResponse eq_refl) as (_ & Hreal & Hsame).
  split; [| split; [exact Hsame | exact Hfb]].
  apply Hreal. intros H. vm_compute in H. discriminate H.
Defined.

(** ** Degradation to the fallback *)

(** C4. When the request of a text analysis fails, [predictFakeNews] still
    returns a result, the one of the fallback classifier, and its model
    version says so. *)
Theorem fallback_when_request_fails env text url analysisType error :
  truthy_opt url = false ->
  apiRequest_response env (textRequest text analysisType) = Rejected error ->
  predictFakeNews env text url analysisType = Resolved (createFallbackPrediction env text)
  /\ modelVersion (createFallbackPrediction env text) = "fallback-v1.0".
Proof.
  intros Hurl Hfail. split.
  - rewrite predictFakeNews_text by done. by rewrite Hfail.
  - apply createFallbackPrediction_modelVersion.
Qed.

Lemma fallback_when_request_fails_witness :
  predictFakeNews (offline 0 "") scenarioA None (Some type_text)
  = Resolved (createFallbackPrediction (offline 0 "") scenarioA)
  /\ modelVersion (createFallbackPrediction (offline 0 "") scenarioA) = "fallback-v1.0".
Proof.
  apply (fallback_when_request_fails (offline 0 "") scenarioA None (Some type_text)
           connectionError); reflexivity.
Defined.

(** ** Input validation *)

(** C8, as stated, fails: the empty text is analysed, not refused. *)
Lemma empty_text_is_not_refused :
  ~ fails (predictFakeNews (offline 0 "") "" None None).
Proof. intros [error Herr]. discriminate Herr. Qed.

(** C8, amended. A text analysis never fails, whatever the length of the
    text, the empty text included: [predictFakeNews] returns a result for the
    very text it was given, from the backend's answer or from the fallback.
    The only failure of [predictFakeNews] is that of a URL analysis whose
    request failed, with a plain connection error. *)
Theorem text_analysis_never_fails env text url analysisType :
  (truthy_opt url = false ->
   exists r, predictFakeNews env text url analysisType = Resolved r /\ inputText r = text)
  /\ (fails (predictFakeNews env text url analysisType) ->
      truthy_opt url = true
      /\ predictFakeNews env text url analysisType
         = Rejected (PlainError
             "URL analysis requires backend connection. Please check if the server is running.")).
Proof.
  split.
  - intros Hurl. rewrite predictFakeNews_text by done.
    destruct (apiRequest_response env _) as [response | error]; eexists; split;
      try reflexivity.
    unfold createFallbackPrediction. by destruct (fallbackRule _ _).
  - intros [error Herr]. destruct (truthy_opt url) eqn:Hurl.
    + split; [reflexivity |]. revert Herr.
      unfold predictFakeNews. rewrite Hurl.
      by destruct (predictFakeNews_try env text url analysisType).
    + rewrite predictFakeNews_text in Herr by done.
      by destruct (apiRequest_response env _).
Qed.

Lemma text_analysis_never_fails_witness :
  exists r, predictFakeNews (offline 0 "") "" None None = Resolved r /\ inputText r = "".
Proof.
  destruct (text_analysis_never_fails (offline 0 "") "" None None) as [Hok _].
  apply Hok. reflexivity.
Defined.

(** ** Determinism *)

Lemma createFallbackPrediction_clock_free env1 env2 text :
  without_clock_fields (createFallbackPrediction env1 text)
  = without_clock_fields (createFallbackPrediction env2 text).
Proof. unfold createFallbackPrediction. by destruct (fallbackRule _ _). Qed.

(** The identifier of a fallback result is the clock reading, in decimal. *)
Lemma fallback_id_tells_the_time env1 env2 text :
  id (createFallbackPrediction env1 text) = id (createFallbackPrediction env2 text)
  <-> Date_now env1 = Date_now env2.
Proof.
  unfold createFallbackPrediction. destruct (fallbackRule _ _); simpl. split.
  - intros H. apply (inj (String.append "fallback-")) in H.
    by apply (inj pretty) in H.
  - by intros ->.
Qed.

(** C6, as stated, fails: the same text analysed at two instants gives
    results that differ outside the [timestamp] field, in [id]. *)
Lemma same_text_two_instants_differ :
  without_timestamp (createFallbackPrediction (offline 1 "t") "study")
  <> without_timestamp (createFallbackPrediction (offline 2 "t") "study")
  /\ (exists r1 r2,
        predictFakeNews (answering sampleResponse 1 "t") "study" None None = Resolved r1
        /\ predictFakeNews (answering sampleResponse 2 "t") "study" None None = Resolved r2
        /\ without_timestamp r1 <> without_timestamp r2).
Proof.
  split; [discriminate |].
  eexists _, _. split; [reflexivity |]. split; [reflexivity |]. discriminate.
Qed.

(** C6, amended. Two text analyses of the same text, with the same analysis
    type and the same outcome of the backend request, both return, and their
    results agree in every field but the two read off the clock, [id] and
    [timestamp]; with the same clock readings they are equal. The fallback
    alone agrees up to these two fields for any two worlds. *)
Theorem deterministic_up_to_clock env1 env2 text url analysisType :
  truthy_opt url = false ->
  apiRequest_response env1 (textRequest text analysisType)
  = apiRequest_response env2 (textRequest text analysisType) ->
  (exists r1 r2,
      predictFakeNews env1 text url analysisType = Resolved r1
      /\ predictFakeNews env2 text url analysisType = Resolved r2
      /\ without_clock_fields r1 = without_clock_fields r2
      /\ (Date_now env1 = Date_now env2 ->
          Date_toISOString env1 = Date_toISOString env2 -> r1 = r2))
  /\ without_clock_fields (createFallbackPrediction env1 text)
     = without_clock_fields (createFallbackPrediction env2 text).
Proof.
  intros Hurl Hsame. split; [| apply createFallbackPrediction_clock_free].
  rewrite !predictFakeNews_text by done. rewrite <- Hsame.
  destruct (apiRequest_response env1 _) as [response | error].
  - eexists _, _. split; [reflexivity |]. split; [reflexivity |]. split; [reflexivity |].
    intros Hnow Hiso. unfold mappedResult. by rewrite Hnow, Hiso.
  - eexists _, _. split; [reflexivity |]. split; [reflexivity |].
    split; [apply createFallbackPrediction_clock_free |].
    intros Hnow Hiso. unfold createFallbackPrediction. by rewrite Hnow, Hiso.
Qed.

Lemma deterministic_up_to_clock_witness :
  (exists r1 r2,
      predictFakeNews (offline 1 "t") "study" None None = Resolved r1
      /\ predictFakeNews (offline 2 "u") "study" None None = Resolved r2
      /\ without_clock_fields r1 = without_clock_fields r2
      /\ (1 = 2 -> "t" = "u" -> r1 = r2))
  /\ without_clock_fields (createFallbackPrediction (offline 1 "t") "study")
     = without_clock_fields (createFallbackPrediction (offline 2 "u") "study").
Proof.
  apply (deterministic_up_to_clock (offline 1 "t") (offline 2 "u") "study" None None);
    reflexivity.
Defined.

(** ** The stored history *)

Lemma storedHistory_insert (storage : gmap string (list PredictionResult)) history :
  storedHistory (<["predictionHistory" := history]> storage) = history.
Proof. unfold storedHistory. by rewrite lookup_insert_eq. Qed.

Lemma handleAnalyze_stores env st text url isFileUpload result :
  predictFakeNews env text url (Some (analysisTypeOf url isFileUpload)) = Resolved result ->
  storedHistory (localStorage (handleAnalyze env st text url isFileUpload))
  = let history :=
      unshift (with_analysis_type result (analysisTypeOf url isFileUpload))
              (storedHistory (localStorage st)) in
    if (50 <? length history)%nat then pop history else history.
Proof.
  intros Hok. unfold handleAnalyze. rewrite Hok. simpl localStorage.
  by rewrite storedHistory_insert.
Qed.

(** A failed analysis leaves the store as it was. *)
Lemma handleAnalyze_failure_keeps_store env st text url isFileUpload error :
  predictFakeNews env text url (Some (analysisTypeOf url isFileUpload)) = Rejected error ->
  localStorage (handleAnalyze env st text url isFileUpload) = localStorage st.
Proof. intros Hfail. unfold handleAnalyze. by rewrite Hfail. Qed.

(** C10. After a successful analysis the new result, tagged with its
    analysis type, is the entry at index 0 of the stored history; a history
    of at most 50 entries stays at most 50 long; and the stored history is
    the new result followed by the old entries, cut from the far end to
    the larger of 50 and the old length. *)
Theorem history_prepended_and_capped env st text url isFileUpload result :
  predictFakeNews env text url (Some (analysisTypeOf url isFileUpload)) = Resolved result ->
  let enhancedResult := with_analysis_type result (analysisTypeOf url isFileUpload) in
  let before := storedHistory (localStorage st) in
  let after := storedHistory (localStorage (handleAnalyze env st text url isFileUpload)) in
  after !! 0%nat = Some enhancedResult
  /\ (length before <= 50 -> length after <= 50)%nat
  /\ after = take (Nat.max 50 (length before)) (enhancedResult :: before).
Proof.
  intros Hok enhancedResult before after.
  assert (Hafter : after = take (Nat.max 50 (length before)) (enhancedResult :: before)).
  { subst after. rewrite (handleAnalyze_stores _ _ _ _ _ _ Hok). cbv zeta.
    fold enhancedResult. fold before. unfold unshift, pop.
    destruct (Nat.ltb_spec 50 (length (enhancedResult :: before))) as [Hlt | Hge].
    - simpl in Hlt. simpl length. f_equal. lia.
    - simpl in Hge. symmetry. apply take_ge. simpl. lia. }
  rewrite Hafter. split; [| split; [| reflexivity]].
  - by rewrite lookup_take_lt by lia.
  - intros Hle. rewrite length_take. simpl. lia.
Qed.

Lemma history_prepended_and_capped_witness :
  let enhancedResult :=
    with_analysis_type (createFallbackPrediction (offline 0 "") "study") type_text in
  let after :=
    storedHistory (localStorage (handleAnalyze (offline 0 "") emptyState "study" None false)) in
  after !! 0%nat = Some enhancedResult
  /\ (length (storedHistory (localStorage emptyState)) <= 50 -> length after <= 50)%nat
  /\ after = take (Nat.max 50 (length (storedHistory (localStorage emptyState))))
                  (enhancedResult :: storedHistory (localStorage emptyState)).
Proof.
  apply (history_prepended_and_capped (offline 0 "") emptyState "study" None false
           (createFallbackPrediction (offline 0 "") "study")).
  reflexivity.
Defined.

(** * Further properties *)

(** ** Built-ins *)

Lemma slice_nonneg {A} (a : list A) (start stop : Z) :
  0 <= start -> start <= stop ->
  slice a start stop = take (Z.to_nat (stop - start)) (drop (Z.to_nat start) a).
Proof.
  intros Hstart Hstop. unfold slice. cbv zeta.
  destruct (Z.ltb_spec start 0) as [? | _]; [lia |].
  destruct (Z.ltb_spec stop 0) as [? | _]; [lia |].
  destruct (Z.le_gt_cases (Z.of_nat (length a)) start) as [Hout | Hin].
  - rewrite Z.min_r by lia.
    rewrite !(drop_ge a) by lia. by rewrite !take_nil.
  - rewrite (Z.min_l start) by lia.
    destruct (Z.le_gt_cases stop (Z.of_nat (length a))) as [Hs | Hs].
    + by rewrite Z.min_l by lia.
    + rewrite Z.min_r by lia.
      rewrite !take_ge; [done | rewrite length_drop; lia | rewrite length_drop; lia].
Qed.


(** ** URL analyses *)

Lemma predictFakeNews_url env text url analysisType :
  truthy_opt url = true ->
  predictFakeNews env text url analysisType =
    match apiRequest_result env (predictRequest (UrlBody (default "" url) "en")) with
    | Resolved response => Resolved (with_timestamp_default env response)
    | Rejected _ =>
        Rejected (PlainError
          "URL analysis requires backend connection. Please check if the server is running.")
    end.
Proof.
  intros Hurl. unfold predictFakeNews, predictFakeNews_try. rewrite Hurl.
  by destruct (apiRequest_result env _).
Qed.

(** X1. In a URL analysis neither the text nor the analysis type passed
    along plays any part: the outcome is that of the request for the URL. *)
Theorem url_analysis_ignores_text env url text1 text2 analysisType1 analysisType2 :
  truthy_opt url = true ->
  predictFakeNews env text1 url analysisType1 = predictFakeNews env text2 url analysisType2.
Proof. intros Hurl. by rewrite !predictFakeNews_url. Qed.

Lemma url_analysis_ignores_text_witness :
  predictFakeNews (urlAnswering sampleResult 5 "t") "one text" (Some "https://example.org") None
  = predictFakeNews (urlAnswering sampleResult 5 "t") "" (Some "https://example.org")
      (Some type_url).
Proof.
  apply (url_analysis_ignores_text (urlAnswering sampleResult 5 "t")
           (Some "https://example.org")).
  reflexivity.
Defined.

(** X2. A result of a URL analysis is the backend's answer, changed at most
    in its timestamp: a timestamp the backend sent is kept, a missing one is
    replaced by the clock's. *)
Theorem url_analysis_keeps_answer env text url analysisType r :
  truthy_opt url = true ->
  predictFakeNews env text url analysisType = Resolved r ->
  exists response,
    apiRequest_result env (predictRequest (UrlBody (default "" url) "en")) = Resolved response
    /\ without_timestamp r = without_timestamp response
    /\ (timestamp response <> "" -> r = response)
    /\ (timestamp response = "" -> timestamp r = Date_toISOString env).
Proof.
  intros Hurl. rewrite predictFakeNews_url by done.
  destruct (apiRequest_result env _) as [response | error]; [| done].
  intros [= <-]. exists response. split; [done |]. split; [done |]. split.
  - intros Hts. destruct response as [? ? ? ? ? ? ts ? ? ? ? ?]. simpl in *.
    unfold with_timestamp_default, or_else. simpl. by destruct ts.
  - intros Hts. simpl. by rewrite Hts.
Qed.

Lemma url_analysis_keeps_answer_witness :
  exists response,
    apiRequest_result (urlAnswering sampleResult 5 "t")
      (predictRequest (UrlBody "https://example.org" "en")) = Resolved response
    /\ without_timestamp (with_timestamp_default (urlAnswering sampleResult 5 "t") sampleResult)
       = without_timestamp response
    /\ (timestamp response <> "" ->
        with_timestamp_default (urlAnswering sampleResult 5 "t") sampleResult = response)
    /\ (timestamp response = "" ->
        timestamp (with_timestamp_default (urlAnswering sampleResult 5 "t") sampleResult) = "t").
Proof.
  apply (url_analysis_keeps_answer (urlAnswering sampleResult 5 "t") "x"
           (Some "https://example.org") None); reflexivity.
Defined.

(** X3. [fetchNewsFromUrl] at the empty URL does not fail, whatever the
    backend does: it runs a text analysis of the empty text and yields the
    empty string. At a non-empty URL it yields the [inputText] of the
    backend's answer, or fails with the connection error of URL analyses. *)
Theorem fetchNewsFromUrl_outcome env url :
  fetchNewsFromUrl env "" = Resolved ""
  /\ (truthy url = true ->
      fetchNewsFromUrl env url =
        match apiRequest_result env (predictRequest (UrlBody url "en")) with
        | Resolved response => Resolved (inputText response)
        | Rejected _ =>
            Rejected (PlainError
              "URL analysis requires backend connection. Please check if the server is running.")
        end).
Proof.
  split.
  - unfold fetchNewsFromUrl. rewrite predictFakeNews_text by done.
    destruct (apiRequest_response env _); [done |].
    unfold createFallbackPrediction. by destruct (fallbackRule _ _).
  - intros Hurl. unfold fetchNewsFromUrl. rewrite predictFakeNews_url by done.
    simpl. by destruct (apiRequest_result env _).
Qed.

Lemma fetchNewsFromUrl_outcome_witness :
  fetchNewsFromUrl (urlAnswering sampleResult 5 "t") "https://example.org"
  = Resolved "Article text".
Proof.
  destruct (fetchNewsFromUrl_outcome (urlAnswering sampleResult 5 "t") "https://example.org")
    as [_ Hurl].
  apply Hurl. reflexivity.
Defined.

(** X4. A batch prediction hands on the backend's list entry by entry:
    as many results, in the same order, each changed at most in a missing
    timestamp; a failed request fails the batch with the same error, and
    no fallback is tried. *)
Theorem batch_keeps_backend_entries sv texts :
  match request_batch sv texts with
  | Resolved predictions =>
      exists results,
        predictBatchFakeNews sv texts = Resolved results
        /\ length results = length predictions
        /\ (forall i pred, predictions !! i = Some pred ->
              exists r, results !! i = Some r
                /\ without_timestamp r = without_timestamp pred
                /\ (timestamp pred <> "" -> r = pred))
  | Rejected error => predictBatchFakeNews sv texts = Rejected error
  end.
Proof.
  unfold predictBatchFakeNews.
  destruct (request_batch sv texts) as [predictions | error]; [| done].
  eexists. split; [reflexivity |]. split; [by rewrite length_map |].
  intros i pred Hi. exists (with_timestamp_default (world sv) pred).
  split; [by rewrite list_lookup_fmap, Hi |]. split; [done |].
  intros Hts. destruct pred as [? ? ? ? ? ? ts ? ? ? ? ?]. simpl in *.
  unfold with_timestamp_default, or_else. simpl. by destruct ts.
Qed.

Lemma batch_keeps_backend_entries_witness :
  exists results,
    predictBatchFakeNews (online (offline 5 "t")) ["a"; "b"] = Resolved results
    /\ length results = 2%nat
    /\ exists r, results !! 1%nat = Some r
         /\ without_timestamp r = without_timestamp sampleResult.
Proof.
  pose proof (batch_keeps_backend_entries (online (offline 5 "t")) ["a"; "b"]) as H.
  simpl in H. destruct H as (results & Hres & Hlen & Hall).
  exists results. split; [exact Hres |]. split; [exact Hlen |].
  destruct (Hall 1%nat sampleResult eq_refl) as (r & Hr & Hsame & _).
  exists r. split; [exact Hr | exact Hsame].
Defined.

(** ** The history endpoint *)




Lemma getPredictionHistory_offline sv storage limit offset error :
  request_history sv = Rejected error ->
  0 <= offset -> 0 <= limit ->
  getPredictionHistory sv storage limit offset =
    Resolved
      {| History.predictions :=
           take (Z.to_nat limit) (drop (Z.to_nat offset) (storedHistory storage));
         History.total := Z.of_nat (length (storedHistory storage));
         History.page :=
           match storage !! "predictionHistory" with
           | Some _ => pageOf offset limit
           | None => Some 1
           end;
         History.perPage := limit |}.
Proof.
  intros Hdown Hoffset Hlimit. unfold getPredictionHistory, storedHistory. rewrite Hdown.
  destruct (storage !! "predictionHistory") as [localHistory |]; simpl.
  - rewrite slice_nonneg by lia. do 3 f_equal. lia.
  - by rewrite drop_nil, take_nil.
Qed.

(** X6. When the history request fails, [getPredictionHistory] serves the
    page from the store: for [offset >= 0] and [limit >= 0] it is the stored
    history without its first [offset] entries, cut to [limit]; it has at
    most [limit] entries, exactly [limit] while [offset + limit] stays
    within the history; [total] is the length of the stored history. *)
Theorem history_offline_page sv storage limit offset error :
  request_history sv = Rejected error ->
  0 <= offset -> 0 <= limit ->
  exists p,
    getPredictionHistory sv storage limit offset = Resolved p
    /\ History.predictions p
       = take (Z.to_nat limit) (drop (Z.to_nat offset) (storedHistory storage))
    /\ Z.of_nat (length (History.predictions p)) <= limit
    /\ (offset + limit <= Z.of_nat (length (storedHistory storage)) ->
        Z.of_nat (length (History.predictions p)) = limit)
    /\ History.total p = Z.of_nat (length (storedHistory storage))
    /\ History.perPage p = limit.
Proof.
  intros Hdown Hoffset Hlimit.
  rewrite (getPredictionHistory_offline _ _ _ _ _ Hdown Hoffset Hlimit).
  eexists. split; [reflexivity |]. simpl. rewrite length_take, length_drop.
  repeat split; lia.
Qed.

Lemma history_offline_page_witness :
  exists p,
    getPredictionHistory (historyDown (offline 5 "t")) sampleStorage 2 1 = Resolved p
    /\ History.predictions p = take 2 (drop 1 (storedHistory sampleStorage))
    /\ Z.of_nat (length (History.predictions p)) <= 2
    /\ (1 + 2 <= Z.of_nat (length (storedHistory sampleStorage)) ->
        Z.of_nat (length (History.predictions p)) = 2)
    /\ History.total p = Z.of_nat (length (storedHistory sampleStorage))
    /\ History.perPage p = 2.
Proof.
  apply (history_offline_page (historyDown (offline 5 "t")) sampleStorage 2 1 connectionError);
    [reflexivity | lia | lia].
Defined.

Lemma historyPage_offline sv storage limit i error :
  request_history sv = Rejected error ->
  0 <= limit ->
  historyPage sv storage limit i
  = take (Z.to_nat limit) (drop (i * Z.to_nat limit) (storedHistory storage)).
Proof.
  intros Hdown Hlimit. unfold historyPage.
  rewrite (getPredictionHistory_offline _ _ _ _ _ Hdown) by lia. simpl.
  do 2 f_equal. lia.
Qed.

(** X7. Offline paging loses and repeats nothing: the first [n] pages of
    [limit] entries, one after the other, are the first [n * limit] entries
    of the stored history, so all of it once [n * limit] reaches its
    length. *)
Theorem history_offline_pages_concat sv storage limit n error :
  request_history sv = Rejected error ->
  0 <= limit ->
  concat (map (historyPage sv storage limit) (seq 0 n))
  = take (n * Z.to_nat limit) (storedHistory storage)
  /\ ((length (storedHistory storage) <= n * Z.to_nat limit)%nat ->
      concat (map (historyPage sv storage limit) (seq 0 n)) = storedHistory storage).
Proof.
  intros Hdown Hlimit.
  assert (Hcat : concat (map (historyPage sv storage limit) (seq 0 n))
                 = take (n * Z.to_nat limit) (storedHistory storage)).
  { induction n as [| n IH]; [done |].
    rewrite seq_S, map_app, concat_app, IH. simpl. rewrite app_nil_r.
    rewrite (historyPage_offline _ _ _ _ _ Hdown Hlimit).
    rewrite take_take_drop. f_equal. lia. }
  split; [exact Hcat |]. intros Hall. rewrite Hcat. by apply take_ge.
Qed.

Lemma history_offline_pages_concat_witness :
  concat (map (historyPage (historyDown (offline 5 "t")) sampleStorage 2) (seq 0 2))
  = storedHistory sampleStorage.
Proof.
  destruct (history_offline_pages_concat (historyDown (offline 5 "t")) sampleStorage 2 2
              connectionError eq_refl) as [_ Hall]; [lia |].
  apply Hall. vm_compute. lia.
Defined.

(** ** Statistics *)




(** ** The application shell *)

Lemma handleAnalyze_success env st text url isFileUpload r :
  predictFakeNews env text url (Some (analysisTypeOf url isFileUpload)) = Resolved r ->
  handleAnalyze env st text url isFileUpload =
    let enhancedResult := with_analysis_type r (analysisTypeOf url isFileUpload) in
    let history := unshift enhancedResult (storedHistory (localStorage st)) in
    {| currentResult := Some enhancedResult;
       isAnalyzing := false;
       historyKey := historyKey st + 1;
       localStorage :=
         <["predictionHistory" :=
             if (50 <? length history)%nat then pop history else history]>
           (localStorage st) |}.
Proof. intros Hok. unfold handleAnalyze. by rewrite Hok. Qed.

Lemma capped_length {A} (x : A) (a : list A) :
  length (if (50 <? length (unshift x a))%nat then pop (unshift x a) else unshift x a)
  = Nat.min (Nat.max 50 (length a)) (S (length a)).
Proof.
  unfold unshift, pop.
  destruct (Nat.ltb_spec 50 (length (x :: a))) as [Hlt | Hge].
  - simpl in Hlt. rewrite length_take. simpl. lia.
  - simpl in Hge |- *. lia.
Qed.

Lemma capped_head {A} (x : A) (a : list A) :
  (if (50 <? length (unshift x a))%nat then pop (unshift x a) else unshift x a) !! 0%nat
  = Some x.
Proof.
  unfold unshift, pop.
  destruct (Nat.ltb_spec 50 (length (x :: a))) as [Hlt | Hge]; [| done].
  simpl in Hlt. rewrite lookup_take_lt by (simpl; lia). done.
Qed.

(** X10. An analysis that fails (a URL analysis whose request failed)
    leaves the store and the history key as they were, ends the busy state,
    and shows an [inconclusive] placeholder of confidence 0 and model version
    ['unknown'] carrying the URL and the connection message. *)
Theorem failed_analysis_shows_placeholder env st text url isFileUpload error :
  truthy_opt url = true ->
  apiRequest_result env (predictRequest (UrlBody (default "" url) "en")) = Rejected error ->
  let st' := handleAnalyze env st text url isFileUpload in
  localStorage st' = localStorage st
  /\ historyKey st' = historyKey st
  /\ isAnalyzing st' = false
  /\ exists shown,
      currentResult st' = Some shown
      /\ prediction shown = inconclusive
      /\ confidence shown = 0%Q
      /\ modelVersion shown = "unknown"
      /\ inputUrl shown = url
      /\ analysis_type shown = Some type_url
      /\ explanation shown
         = "URL analysis requires backend connection. Please check if the server is running.".
Proof.
  intros Hurl Hfail st'. subst st'. unfold handleAnalyze.
  rewrite predictFakeNews_url by done. rewrite Hfail.
  unfold analysisTypeOf. rewrite Hurl. simpl.
  repeat split. eexists. by repeat split.
Qed.

Lemma failed_analysis_shows_placeholder_witness :
  localStorage (handleAnalyze (offline 0 "") emptyState "x" (Some "https://example.org") false)
  = localStorage emptyState.
Proof.
  destruct (failed_analysis_shows_placeholder (offline 0 "") emptyState "x"
              (Some "https://example.org") false connectionError eq_refl eq_refl)
    as [Hstore _].
  exact Hstore.
Defined.

(** X11. Whatever the outcome, [handleAnalyze] ends with the busy flag
    cleared and a result on display, writes no key of [localStorage] other
    than ['predictionHistory'], and moves the history key by at most one. *)
Theorem handleAnalyze_frame env st text url isFileUpload :
  let st' := handleAnalyze env st text url isFileUpload in
  isAnalyzing st' = false
  /\ is_Some (currentResult st')
  /\ (forall key, key <> "predictionHistory" ->
        localStorage st' !! key = localStorage st !! key)
  /\ historyKey st <= historyKey st' <= historyKey st + 1.
Proof.
  intros st'. subst st'. unfold handleAnalyze.
  destruct (predictFakeNews env text url _) as [r | error]; simpl.
  - split; [done |]. split; [by eexists |]. split; [| lia].
    intros key Hkey. by rewrite lookup_insert_ne.
  - split; [done |]. split; [by eexists |]. split; [done | lia].
Qed.

Lemma handleAnalyze_frame_witness :
  localStorage (handleAnalyze (offline 0 "") emptyState "study" None false) !! "theme"
  = localStorage emptyState !! "theme".
Proof.
  destruct (handleAnalyze_frame (offline 0 "") emptyState "study" None false)
    as (_ & _ & Hframe & _).
  apply Hframe. discriminate.
Defined.

(** X12. After a successful analysis the result on display is the entry at
    the head of the stored history, and the history key has moved by one. *)
Theorem shown_result_is_stored_head env st text url isFileUpload r :
  predictFakeNews env text url (Some (analysisTypeOf url isFileUpload)) = Resolved r ->
  let st' := handleAnalyze env st text url isFileUpload in
  currentResult st' = storedHistory (localStorage st') !! 0%nat
  /\ historyKey st' = historyKey st + 1.
Proof.
  intros Hok st'. subst st'. rewrite (handleAnalyze_success _ _ _ _ _ _ Hok). cbv zeta.
  cbn [currentResult localStorage historyKey].
  rewrite storedHistory_insert. split; [| done]. by rewrite capped_head.
Qed.

Lemma shown_result_is_stored_head_witness :
  currentResult (handleAnalyze (offline 0 "") emptyState "study" None false)
  = storedHistory (localStorage (handleAnalyze (offline 0 "") emptyState "study" None false))
      !! 0%nat.
Proof.
  destruct (shown_result_is_stored_head (offline 0 "") emptyState "study" None false
              (createFallbackPrediction (offline 0 "") "study") eq_refl) as [Hhead _].
  exact Hhead.
Defined.

Lemma handleClick_length st c :
  (length (storedHistory (localStorage st)) <= 50)%nat ->
  (length (storedHistory (localStorage (handleClick st c))) <= 50)%nat.
Proof.
  intros Hle. unfold handleClick, handleAnalyze.
  destruct (predictFakeNews _ _ _ _) as [r | error]; cbn [localStorage]; [| done].
  rewrite storedHistory_insert, capped_length. lia.
Qed.

(** X13. The cap is an invariant of the application: from a store whose
    history has at most 50 entries, no sequence of analyses, successful or
    not, in whatever worlds, leaves more than 50 entries. *)
Theorem history_cap_is_invariant clicks st :
  (length (storedHistory (localStorage st)) <= 50)%nat ->
  (length (storedHistory (localStorage (handleClicks clicks st))) <= 50)%nat.
Proof.
  unfold handleClicks. revert st.
  induction clicks as [| c clicks IH]; intros st Hle; [done |].
  simpl. apply IH. by apply handleClick_length.
Qed.

Lemma history_cap_is_invariant_witness :
  (length (storedHistory (localStorage
     (handleClicks
        [ {| click_world := offline 1 "a"; click_text := "study";
             click_url := None; click_isFileUpload := false |};
          {| click_world := offline 2 "b"; click_text := "x";
             click_url := Some "https://example.org"; click_isFileUpload := false |} ]
        emptyState))) <= 50)%nat.
Proof.
  apply history_cap_is_invariant. vm_compute. lia.
Defined.

Lemma handleClick_text st c :
  truthy_opt (click_url c) = false ->
  length (storedHistory (localStorage (handleClick st c)))
  = Nat.min (Nat.max 50 (length (storedHistory (localStorage st))))
            (S (length (storedHistory (localStorage st))))
  /\ historyKey (handleClick st c) = historyKey st + 1.
Proof.
  intros Hurl. unfold handleClick, handleAnalyze.
  rewrite predictFakeNews_text by done.
  destruct (apiRequest_response _ _) as [response | error];
    cbn [localStorage historyKey]; by rewrite storedHistory_insert, capped_length.
Qed.

(** X14. Text and file analyses always get stored: after [n] of them, from a
    history of [k <= 50] entries, the stored history has [min 50 (k + n)]
    entries and the history key has moved by [n], whether the backend
    answered or the fallback did. *)
Theorem text_analyses_fill_history clicks st :
  Forall (fun c => truthy_opt (click_url c) = false) clicks ->
  (length (storedHistory (localStorage st)) <= 50)%nat ->
  length (storedHistory (localStorage (handleClicks clicks st)))
  = Nat.min 50 (length (storedHistory (localStorage st)) + length clicks)
  /\ historyKey (handleClicks clicks st) = historyKey st + Z.of_nat (length clicks).
Proof.
  unfold handleClicks. intros Hall. revert st.
  induction Hall as [| c clicks Hc _ IH]; intros st Hle; cbn [fold_left length].
  - split; lia.
  - destruct (handleClick_text st c Hc) as [Hlen Hkey].
    destruct (IH (handleClick st c)) as [IHlen IHkey]; [rewrite Hlen; lia |].
    rewrite IHlen, IHkey, Hlen, Hkey. split; lia.
Qed.

Lemma text_analyses_fill_history_witness :
  length (storedHistory (localStorage
     (handleClicks
        [ {| click_world := offline 1 "a"; click_text := "study";
             click_url := None; click_isFileUpload := false |};
          {| click_world := answering sampleResponse 2 "b"; click_text := "";
             click_url := None; click_isFileUpload := true |} ]
        emptyState)))
  = Nat.min 50 (length (storedHistory (localStorage emptyState)) + 2).
Proof.
  refine (proj1 (text_analyses_fill_history
    [ {| click_world := offline 1 "a"; click_text := "study";
         click_url := None; click_isFileUpload := false |};
      {| click_world := answering sampleResponse 2 "b"; click_text := "";
         click_url := None; click_isFileUpload := true |} ] emptyState _ _)).
  - repeat constructor.
  - vm_compute. lia.
Defined.

(** X15. What the application stores is what the offline history serves:
    after a successful analysis, when the history request fails, the first
    page of [getPredictionHistory] (any positive [limit]) starts with the
    result just analysed, and [total] is the length of the stored history. *)
Theorem stored_result_is_served env st text url isFileUpload r sv limit error :
  predictFakeNews env text url (Some (analysisTypeOf url isFileUpload)) = Resolved r ->
  request_history sv = Rejected error ->
  0 < limit ->
  let st' := handleAnalyze env st text url isFileUpload in
  exists p,
    getPredictionHistory sv (localStorage st') limit 0 = Resolved p
    /\ History.predictions p !! 0%nat
       = Some (with_analysis_type r (analysisTypeOf url isFileUpload))
    /\ History.total p = Z.of_nat (length (storedHistory (localStorage st'))).
Proof.
  intros Hok Hdown Hlimit st'.
  rewrite (getPredictionHistory_offline _ _ _ _ _ Hdown) by lia.
  eexists. split; [reflexivity |]. simpl. split; [| done].
  rewrite lookup_take_lt by lia.
  subst st'. rewrite (handleAnalyze_success _ _ _ _ _ _ Hok). cbv zeta.
  cbn [localStorage]. rewrite storedHistory_insert. apply capped_head.
Qed.

Lemma stored_result_is_served_witness :
  exists p,
    getPredictionHistory (historyDown (offline 9 "z"))
      (localStorage (handleAnalyze (offline 0 "") emptyState "study" None false)) 20 0
    = Resolved p
    /\ History.predictions p !! 0%nat
       = Some (with_analysis_type (createFallbackPrediction (offline 0 "") "study") type_text)
    /\ History.total p
       = Z.of_nat (length (storedHistory
           (localStorage (handleAnalyze (offline 0 "") emptyState "study" None false)))).
Proof.
  apply (stored_result_is_served (offline 0 "") emptyState "study" None false
           (createFallbackPrediction (offline 0 "") "study") (historyDown (offline 9 "z"))
           20 connectionError); [reflexivity | reflexivity | lia].
Defined.

(** ** The history panel *)

Lemma typeCount_partition history :
  (HistoryPanel.typeCount type_text history + HistoryPanel.typeCount type_url history
   + HistoryPanel.typeCount type_file history = length history)%nat.
Proof.
  unfold HistoryPanel.typeCount. induction history as [| h history IH]; [done |].
  simpl. destruct (HistoryPanel.getAnalysisType h); simpl; lia.
Qed.

(** X16. The counts on the three filter buttons add up to the count on
    'All', and each filtered view shows as many entries as its button says;
    the 'All' view shows the whole history. *)
Theorem type_filters_partition st :
  (let '(textCount, urlCount, fileCount) := HistoryPanel.getTypeStats st in
   (textCount + urlCount + fileCount)%nat = length (HistoryPanel.history st))
  /\ (forall t,
        HistoryPanel.filterType st = Some t ->
        length (HistoryPanel.filteredHistory st)
        = HistoryPanel.typeCount t (HistoryPanel.history st))
  /\ (HistoryPanel.filterType st = None ->
      HistoryPanel.filteredHistory st = HistoryPanel.history st).
Proof.
  split; [apply typeCount_partition |]. split.
  - intros t Ht. unfold HistoryPanel.filteredHistory, HistoryPanel.typeCount. by rewrite Ht.
  - intros Hall. unfold HistoryPanel.filteredHistory. rewrite Hall.
    induction (HistoryPanel.history st) as [| h l IH]; [done |]. simpl. by rewrite IH.
Qed.

Lemma type_filters_partition_witness :
  length (HistoryPanel.filteredHistory
    {| HistoryPanel.history := storedHistory sampleStorage;
       HistoryPanel.isLoading := false;
       HistoryPanel.error := None;
       HistoryPanel.total := 3;
       HistoryPanel.page := 1;
       HistoryPanel.hasMore := false;
       HistoryPanel.filterType := Some type_text |}) = 2%nat.
Proof.
  destruct (type_filters_partition
    {| HistoryPanel.history := storedHistory sampleStorage;
       HistoryPanel.isLoading := false;
       HistoryPanel.error := None;
       HistoryPanel.total := 3;
       HistoryPanel.page := 1;
       HistoryPanel.hasMore := false;
       HistoryPanel.filterType := Some type_text |}) as (_ & Hfiltered & _).
  rewrite (Hfiltered type_text eq_refl). reflexivity.
Defined.

(** X17. The panel files a stored entry under the type its analysis ran
    as: for the entry [handleAnalyze] stores, [getAnalysisType] is ['url']
    for a URL analysis, ['file'] for an upload and ['text'] otherwise,
    whatever type the backend's answer carried. *)
Theorem stored_entry_keeps_its_type env st text url isFileUpload r :
  predictFakeNews env text url (Some (analysisTypeOf url isFileUpload)) = Resolved r ->
  exists entry,
    storedHistory (localStorage (handleAnalyze env st text url isFileUpload)) !! 0%nat
    = Some entry
    /\ HistoryPanel.getAnalysisType entry = analysisTypeOf url isFileUpload.
Proof.
  intros Hok. rewrite (handleAnalyze_success _ _ _ _ _ _ Hok). cbv zeta.
  cbn [localStorage]. rewrite storedHistory_insert, capped_head. by eexists.
Qed.

Lemma stored_entry_keeps_its_type_witness :
  exists entry,
    storedHistory (localStorage
      (handleAnalyze (urlAnswering sampleResult 5 "t") emptyState "x"
         (Some "https://example.org") true)) !! 0%nat = Some entry
    /\ HistoryPanel.getAnalysisType entry = type_url.
Proof.
  apply (stored_entry_keeps_its_type (urlAnswering sampleResult 5 "t") emptyState "x"
           (Some "https://example.org") true
           (with_timestamp_default (urlAnswering sampleResult 5 "t") sampleResult)).
  reflexivity.
Defined.

Lemma getPredictionHistory_resolves sv storage limit offset :
  exists p, getPredictionHistory sv storage limit offset = Resolved p.
Proof.
  unfold getPredictionHistory.
  destruct (request_history sv); [by eexists |].
  destruct (storage !! "predictionHistory"); by eexists.
Qed.

(** X18. [loadHistory] never ends in its error state: since
    [getPredictionHistory] answers from the store when the request fails,
    the panel is left not loading, with no error message (the notice
    'Using local data - backend unavailable' is never set), on the page
    asked for and with its filter untouched. *)
Theorem loadHistory_never_reports sv storage st pageNum append :
  let st' := HistoryPanel.loadHistory sv storage st pageNum append in
  HistoryPanel.error st' = None
  /\ HistoryPanel.isLoading st' = false
  /\ HistoryPanel.page st' = pageNum
  /\ HistoryPanel.filterType st' = HistoryPanel.filterType st.
Proof.
  intros st'. subst st'. unfold HistoryPanel.loadHistory. cbv zeta.
  destruct (getPredictionHistory_resolves sv storage 20 ((pageNum - 1) * 20)) as [p ->].
  done.
Qed.

(** X19. When the backend answers the history request, 'Load More' is never
    offered: [loadHistory] shows every row at once and sets [hasMore] to
    [false], on whatever page. *)
Theorem loadHistory_online_has_no_more sv storage st pageNum items :
  request_history sv = Resolved items ->
  1 <= pageNum ->
  let st' := HistoryPanel.loadHistory sv storage st pageNum false in
  HistoryPanel.hasMore st' = false
  /\ HistoryPanel.history st' = map (historyEntry (world sv)) items
  /\ HistoryPanel.total st' = Z.of_nat (length items).
Proof.
  intros Hok Hpage st'. subst st'.
  unfold HistoryPanel.loadHistory, getPredictionHistory. rewrite Hok. cbv zeta. simpl.
  split; [| done]. rewrite length_map.
  destruct (Z.eqb_spec (Z.of_nat (length items)) 20) as [-> | _]; [| done].
  simpl. apply Z.ltb_ge. lia.
Qed.

Lemma loadHistory_online_has_no_more_witness :
  HistoryPanel.hasMore
    (HistoryPanel.loadHistory (online (offline 5 "t")) sampleStorage emptyPanel 1 false)
  = false.
Proof.
  destruct (loadHistory_online_has_no_more (online (offline 5 "t")) sampleStorage emptyPanel 1
              [sampleItem] eq_refl) as [Hmore _]; [lia |].
  exact Hmore.
Defined.

Lemma loadHistory_offline sv storage st pageNum append error :
  request_history sv = Rejected error ->
  1 <= pageNum ->
  HistoryPanel.loadHistory sv storage st pageNum append =
    {| HistoryPanel.history :=
         if append
         then HistoryPanel.history st
              ++ take 20 (drop (Z.to_nat ((pageNum - 1) * 20)) (storedHistory storage))
         else take 20 (drop (Z.to_nat ((pageNum - 1) * 20)) (storedHistory storage));
       HistoryPanel.isLoading := false;
       HistoryPanel.error := None;
       HistoryPanel.total := Z.of_nat (length (storedHistory storage));
       HistoryPanel.page := pageNum;
       HistoryPanel.hasMore :=
         bool_decide (pageNum * 20 < Z.of_nat (length (storedHistory storage)));
       HistoryPanel.filterType := HistoryPanel.filterType st |}.
Proof.
  intros Hdown Hpage. unfold HistoryPanel.loadHistory. cbv zeta.
  rewrite (getPredictionHistory_offline _ _ _ _ _ Hdown) by lia.
  cbn [History.predictions History.total]. change (Z.to_nat 20) with 20%nat.
  set (pageData := take 20 (drop (Z.to_nat ((pageNum - 1) * 20)) (storedHistory storage))).
  f_equal.
  assert (Hlen : length pageData
                 = Nat.min 20 (length (storedHistory storage) - Z.to_nat ((pageNum - 1) * 20))).
  { subst pageData. by rewrite length_take, length_drop. }
  rewrite Hlen. case_bool_decide as Hmore.
  - apply andb_true_iff. split; [apply Z.eqb_eq | apply Z.ltb_lt]; lia.
  - apply andb_false_iff. right. apply Z.ltb_ge. lia.
Qed.

(** X20. Offline, the panel pages through the store without gap or
    repetition: after mounting and [k] clicks on 'Load More' it shows the
    first [20 (k + 1)] stored entries, is on page [k + 1], reports the
    stored length as total, and offers more exactly when stored entries
    remain beyond what it shows. *)
Theorem panel_offline_paging sv storage st k error :
  request_history sv = Rejected error ->
  let st' :=
    Nat.iter k (HistoryPanel.loadMore sv storage)
      (HistoryPanel.initializeHistory sv storage st) in
  HistoryPanel.history st' = take (20 * (k + 1)) (storedHistory storage)
  /\ HistoryPanel.page st' = Z.of_nat k + 1
  /\ HistoryPanel.total st' = Z.of_nat (length (storedHistory storage))
  /\ (HistoryPanel.hasMore st' = true
      <-> (20 * (k + 1) < length (storedHistory storage))%nat).
Proof.
  intros Hdown. cbv zeta. induction k as [| k (IHh & IHp & IHt & IHm)].
  - simpl Nat.iter. unfold HistoryPanel.initializeHistory. cbv zeta.
    rewrite (loadHistory_offline _ _ _ _ _ _ Hdown) by lia.
    cbn [HistoryPanel.history HistoryPanel.page HistoryPanel.total HistoryPanel.hasMore].
    split; [done |]. split; [done |]. split; [done |].
    rewrite bool_decide_eq_true. lia.
  - rewrite Nat.iter_succ.
    set (prev := Nat.iter k _ _) in *. unfold HistoryPanel.loadMore.
    rewrite (loadHistory_offline _ _ _ _ _ _ Hdown) by lia.
    cbn [HistoryPanel.history HistoryPanel.page HistoryPanel.total HistoryPanel.hasMore].
    rewrite IHh, IHp. split; [| split; [lia | split; [done |]]].
    + replace (Z.to_nat ((Z.of_nat k + 1 + 1 - 1) * 20)) with (20 * (k + 1))%nat by lia.
      rewrite take_take_drop. f_equal. lia.
    + rewrite bool_decide_eq_true. lia.
Qed.

Lemma panel_offline_paging_witness :
  HistoryPanel.history
    (Nat.iter 1 (HistoryPanel.loadMore (historyDown (offline 5 "t")) sampleStorage)
       (HistoryPanel.initializeHistory (historyDown (offline 5 "t")) sampleStorage emptyPanel))
  = take (20 * (1 + 1)) (storedHistory sampleStorage).
Proof.
  destruct (panel_offline_paging (historyDown (offline 5 "t")) sampleStorage emptyPanel 1
              connectionError eq_refl) as [Hshown _].
  exact Hshown.
Defined.




(** X22. A confirmed 'Clear All' empties display and store and leaves the
    other keys alone; afterwards the offline history is the empty page with
    total 0, and the next successful analysis is the only stored entry.
    An unconfirmed one changes nothing. *)
Theorem clearHistory_effect storage st :
  HistoryPanel.clearHistory false storage st = (st, storage)
  /\ (let st' := (HistoryPanel.clearHistory true storage st).1 in
      let storage' := (HistoryPanel.clearHistory true storage st).2 in
      HistoryPanel.history st' = []
      /\ HistoryPanel.total st' = 0
      /\ storedHistory storage' = []
      /\ (forall key, key <> "predictionHistory" -> storage' !! key = storage !! key)
      /\ (forall sv limit offset error,
            request_history sv = Rejected error ->
            getPredictionHistory sv storage' limit offset
            = Resolved {| History.predictions := [];
                          History.total := 0;
                          History.page := Some 1;
                          History.perPage := limit |})
      /\ (forall env app text url isFileUpload r,
            localStorage app = storage' ->
            predictFakeNews env text url (Some (analysisTypeOf url isFileUpload))
            = Resolved r ->
            storedHistory (localStorage (handleAnalyze env app text url isFileUpload))
            = [with_analysis_type r (analysisTypeOf url isFileUpload)])).
Proof.
  split; [done |]. cbv zeta. unfold HistoryPanel.clearHistory.
  cbn [fst snd HistoryPanel.history HistoryPanel.total].
  assert (Hempty : storedHistory (delete "predictionHistory" storage) = []).
  { unfold storedHistory. by rewrite lookup_delete_eq. }
  split; [done |]. split; [done |]. split; [exact Hempty |]. split; [| split].
  - intros key Hkey. by rewrite lookup_delete_ne.
  - intros sv limit offset error Hdown. unfold getPredictionHistory.
    by rewrite Hdown, lookup_delete_eq.
  - intros env app text url isFileUpload r Happ Hok.
    rewrite (handleAnalyze_success _ _ _ _ _ _ Hok). cbv zeta. cbn [localStorage].
    by rewrite storedHistory_insert, Happ, Hempty.
Qed.

Lemma clearHistory_effect_witness :
  getPredictionHistory (historyDown (offline 5 "t"))
    (HistoryPanel.clearHistory true sampleStorage emptyPanel).2 20 0
  = Resolved {| History.predictions := [];
                History.total := 0;
                History.page := Some 1;
                History.perPage := 20 |}.
Proof.
  destruct (clearHistory_effect sampleStorage emptyPanel)
    as (_ & _ & _ & _ & _ & Hpage & _).
  apply (Hpage (historyDown (offline 5 "t")) 20 0 connectionError). reflexivity.
Defined.






(** ** The result card *)

(** X24. The result card multiplies the confidence by 100 again: for every
    result of the fallback classifier, whose confidence is already between
    60 and 85, the percentage shown is a hundred times that confidence,
    between 6000 and 8500, and the bar is always green. *)
Theorem fallback_result_on_card fp env text :
  let r := createFallbackPrediction env text in
  (inject_Z (ResultDisplay.shownPercent fp r) == confidence r * 100)%Q
  /\ 6000 <= ResultDisplay.shownPercent fp r <= 8500
  /\ ResultDisplay.getConfidenceColor fp r = "bg-green-500".
Proof.
  cbv zeta.
  destruct (fallback_confidence_value env text) as (c & Hc & Hrange & _).
  assert (Hpow : 2 ^ 53 = 9007199254740992) by reflexivity.
  assert (Hmul : fmul fp (inject_Z c) 100%Q = inject_Z (c * 100)).
  { change 100%Q with (inject_Z 100). apply fmul_exact; lia. }
  unfold ResultDisplay.shownPercent, ResultDisplay.getConfidenceColor.
  rewrite Hc, Hmul, Math_round_exact by lia.
  split; [by rewrite inject_Z_mult |]. split; [lia |].
  cbv zeta. replace (Qle_bool 80 (inject_Z (c * 100))) with true; [done |].
  symmetry. apply Qle_bool_iff.
  change 80%Q with (inject_Z 80). rewrite <- Zle_Qle. lia.
Qed.

(** ** The simple shell *)

(** X25. The simple shell hands its second argument to [predictFakeNews]
    where the URL is expected. With no second argument (a text analysis from
    the input form) the default stands in, and the request sent is a URL
    request for the string 'text'; with a non-empty string (the input form
    passes the URL there) it is a URL request for that string. Either way
    the text plays no part, the fallback classifier is never used, and a
    failed request shows the 'ERROR' object without touching the refresh
    counter. *)
Theorem simple_shell_analyses_second_argument env st text analysisType :
  analysisType <> Some "" ->
  SimpleApp.handleAnalyze env st text analysisType =
    match apiRequest_result env
            (predictRequest (UrlBody (default "text" analysisType) "en")) with
    | Resolved response =>
        {| SimpleApp.result :=
             Some (SimpleApp.Prediction (with_timestamp_default env response));
           SimpleApp.isLoading := false;
           SimpleApp.showFeedback := SimpleApp.showFeedback st;
           SimpleApp.refreshHistory := SimpleApp.refreshHistory st + 1 |}
    | Rejected _ =>
        {| SimpleApp.result :=
             Some (SimpleApp.Failure "ERROR" 0%Q "Analysis failed. Please try again.");
           SimpleApp.isLoading := false;
           SimpleApp.showFeedback := SimpleApp.showFeedback st;
           SimpleApp.refreshHistory := SimpleApp.refreshHistory st |}
    end
  /\ forall text', SimpleApp.handleAnalyze env st text analysisType
                   = SimpleApp.handleAnalyze env st text' analysisType.
Proof.
  intros Hgiven.
  assert (Hurl : truthy_opt (Some (default "text" analysisType)) = true).
  { destruct analysisType as [[| c rest] |]; done. }
  unfold SimpleApp.handleAnalyze. cbv zeta. split.
  - rewrite predictFakeNews_url by done. simpl.
    by destruct (apiRequest_result env _).
  - intros text'. by rewrite !predictFakeNews_url.
Qed.

Lemma simple_shell_analyses_second_argument_witness :
  SimpleApp.handleAnalyze (offline 0 "")
    {| SimpleApp.result := None; SimpleApp.isLoading := false;
       SimpleApp.showFeedback := false; SimpleApp.refreshHistory := 0 |}
    "According to a study published by the university" None
  = SimpleApp.handleAnalyze (offline 0 "")
      {| SimpleApp.result := None; SimpleApp.isLoading := false;
         SimpleApp.showFeedback := false; SimpleApp.refreshHistory := 0 |}
      "" None.
Proof.
  destruct (simple_shell_analyses_second_argument (offline 0 "")
    {| SimpleApp.result := None; SimpleApp.isLoading := false;
       SimpleApp.showFeedback := false; SimpleApp.refreshHistory := 0 |}
    "According to a study published by the university" None) as [_ Hany].
  - discriminate.
  - apply Hany.
Defined.
